(** * Exercise tracker: validation, date normalisation and log queries

    A shallow embedding of the request handlers of the exercise tracker
    (Express + Mongoose, [index.js]) together with the JavaScript built-ins
    they rely on ([parseInt], [Date.UTC], [Date.prototype.toDateString],
    [Array.prototype.filter] and [slice]), and the properties of its
    natural-language specification stated over that embedding.

    The embedding follows the complete version of the server, the one
    with the log handler; the earlier version has the same duration
    validator.

    Conventions:
    - a JavaScript Number that the code only ever produces as an integer is
      a [Z]; [NaN] is [None] in [option Z];
    - a handler is a function from the store and a request to an outcome
      and a new store; an exception that escapes the handler is an outcome
      of its own;
    - what the repository does not fix (the local time zone and the legacy
      date parser of the runtime, the casts of the store) is an interface,
      [Locale] and [Mongoose], over which the statements quantify. *)

From Stdlib Require Import ZArith String Ascii List Lia Bool.
From stdpp Require Import base option list strings gmap fin_maps.

Local Open Scope string_scope.
Local Open Scope Z_scope.

(** ** JavaScript values *)

Module JS.

(** The primitive values a parsed request body can hand to the handlers.
    [VNum n] is the Number [n] for an integer [n]; such a Number exists and
    prints as plain decimal digits exactly when [n] is a safe integer. *)
Inductive value : Type :=
  | VUndefined
  | VNull
  | VBool (b : bool)
  | VNum (n : Z)
  | VStr (s : string).



(** ToBoolean, as used by [!x], [a && b] and [if (x)]. *)
Definition truthy (v : value) : bool :=
  match v with
  | VUndefined | VNull => false
  | VBool b => b
  | VNum n => negb (n =? 0)
  | VStr s => negb (String.eqb s "")
  end.

(** *** Characters *)

Definition code (c : ascii) : Z := Z.of_N (N_of_ascii c).

Definition charOfCode (n : Z) : ascii := ascii_of_N (Z.to_N n).

(** A string is its sequence of code units; the embedding covers the code
    units below 256.  Of ECMAScript's WhiteSpace and LineTerminator code
    points these are TAB, LF, VT, FF, CR, SP and NBSP. *)
Definition isWhiteSpace (c : ascii) : bool :=
  let n := code c in
  ((9 <=? n) && (n <=? 13)) || (n =? 32) || (n =? 160).

(** The value of [c] as a digit in a radix up to 36, before the radix is
    taken into account. *)
Definition digitValue (c : ascii) : option Z :=
  let n := code c in
  if (48 <=? n) && (n <=? 57) then Some (n - 48)
  else if (97 <=? n) && (n <=? 122) then Some (n - 87)
  else if (65 <=? n) && (n <=? 90) then Some (n - 55)
  else None.

Definition digitIn (R : Z) (c : ascii) : option Z :=
  match digitValue c with
  | Some d => if d <? R then Some d else None
  | None => None
  end.

Fixpoint trimStart (s : string) : string :=
  match s with
  | String c r => if isWhiteSpace c then trimStart r else s
  | EmptyString => s
  end.

(** *** Number::toString for integers *)

Fixpoint showDigits (fuel : nat) (n : Z) (acc : string) : string :=
  let acc' := String (charOfCode (48 + n mod 10)) acc in
  match fuel with
  | O => acc'
  | S f => if n <? 10 then acc' else showDigits f (n / 10) acc'
  end.

Definition showNat (n : Z) : string :=
  showDigits (Z.to_nat (Z.log2 n)) n "".

Definition Number_toString (n : Z) : string :=
  if n <? 0 then String "-" (showNat (- n)) else showNat n.

(** ToString on the primitives. *)
Definition ToString (v : value) : string :=
  match v with
  | VUndefined => "undefined"
  | VNull => "null"
  | VBool true => "true"
  | VBool false => "false"
  | VNum n => Number_toString n
  | VStr s => s
  end.

(** *** parseInt *)

(** The longest prefix of radix-[R] digits, read as an integer; [None] when
    there is no digit at all.  The mathematical integer is kept exact: the
    handlers only compare it with small constants or clamp it, which
    rounding to a double does not change. *)
Fixpoint digitsPrefix (R : Z) (s : string) (acc : Z) (seen : bool)
  : option Z :=
  match s with
  | String c r =>
      match digitIn R c with
      | Some d => digitsPrefix R r (acc * R + d) true
      | None => if seen then Some acc else None
      end
  | EmptyString => if seen then Some acc else None
  end.

Definition stripSign (s : string) : Z * string :=
  match s with
  | String "-" r => (-1, r)
  | String "+" r => (1, r)
  | _ => (1, s)
  end.

Definition stripHexPrefix (s : string) : option string :=
  match s with
  | String "0" (String "x" r) => Some r
  | String "0" (String "X" r) => Some r
  | _ => None
  end.

(** [parseInt(v, radix)]; [radix = None] is the call with one argument.
    [-0] and [0] are the same [Z]: every comparison the code makes treats
    them alike. *)
Definition parseInt (v : value) (radix : option Z) : option Z :=
  let '(sign, str) := stripSign (trimStart (ToString v)) in
  let R := match radix with Some r => r | None => 0 end in
  if negb (R =? 0) && ((R <? 2) || (36 <? R)) then None
  else
    let '(R', str') :=
      if (R =? 0) || (R =? 16) then
        match stripHexPrefix str with
        | Some r => (16, r)
        | None => (if R =? 0 then 10 else R, str)
        end
      else (R, str) in
    match digitsPrefix R' str' 0 false with
    | Some n => Some (sign * n)
    | None => None
    end.

(** *** Number operations on [option Z] ([None] is NaN) *)

Definition isNaN (x : option Z) : bool :=
  match x with None => true | Some _ => false end.

Definition num_ge (x y : option Z) : bool :=
  match x, y with Some a, Some b => b <=? a | _, _ => false end.

Definition num_le (x y : option Z) : bool :=
  match x, y with Some a, Some b => a <=? b | _, _ => false end.

Definition num_add (x y : option Z) : option Z :=
  match x, y with Some a, Some b => Some (a + b) | _, _ => None end.

Definition num_sub (x y : option Z) : option Z :=
  match x, y with Some a, Some b => Some (a - b) | _, _ => None end.

Definition num_mul (x y : option Z) : option Z :=
  match x, y with Some a, Some b => Some (a * b) | _, _ => None end.

End JS.

Import JS.

(** ** The duration validator *)

(** [isValidDuration] of [index.js]. *)
Definition isValidDuration (duration : value) : bool :=
  let numericValue := parseInt duration (Some 10) in
  negb (isNaN numericValue)
  && num_ge numericValue (Some 0)
  && num_le numericValue (Some 600).

(** ** Dates: ECMAScript time values

    A time value is a number of milliseconds since the epoch, or NaN
    ([None]).  The definitions follow the abstract operations of the
    language specification (Day, YearFromTime, MakeDay, TimeClip, ...). *)

Module JSDate.

Definition msPerDay : Z := 86400000.
Definition msPerMinute : Z := 60000.

Definition Day (t : Z) : Z := t / msPerDay.

Definition DaysInYear (y : Z) : Z :=
  if negb (y mod 4 =? 0) then 365
  else if negb (y mod 100 =? 0) then 366
  else if negb (y mod 400 =? 0) then 365
  else 366.

Definition DayFromYear (y : Z) : Z :=
  365 * (y - 1970) + (y - 1969) / 4 - (y - 1901) / 100 + (y - 1601) / 400.

Definition TimeFromYear (y : Z) : Z := msPerDay * DayFromYear y.

(** The largest [y] with [TimeFromYear y <= t]: an estimate from the mean
    length of a year, corrected by at most one (see [YearFromTime_spec]). *)
Definition YearFromTime (t : Z) : Z :=
  let d := Day t in
  let y := 1970 + (d * 400) / 146097 in
  if d <? DayFromYear y then y - 1
  else if DayFromYear (y + 1) <=? d then y + 1
  else y.

(** 1 in a leap year, 0 otherwise. *)
Definition leapDay (y : Z) : Z := if DaysInYear y =? 366 then 1 else 0.

Definition InLeapYear (t : Z) : Z := leapDay (YearFromTime t).

Definition DayWithinYear (t : Z) : Z :=
  Day t - DayFromYear (YearFromTime t).

(** Day number, within a year, of the first day of month [m] (0-based). *)
Definition monthStart (leap m : Z) : Z :=
  match m with
  | 0 => 0
  | 1 => 31
  | 2 => 59 + leap
  | 3 => 90 + leap
  | 4 => 120 + leap
  | 5 => 151 + leap
  | 6 => 181 + leap
  | 7 => 212 + leap
  | 8 => 243 + leap
  | 9 => 273 + leap
  | 10 => 304 + leap
  | _ => 334 + leap
  end.

Definition MonthFromTime (t : Z) : Z :=
  let d := DayWithinYear t in
  let leap := InLeapYear t in
  if d <? 31 then 0
  else if d <? 59 + leap then 1
  else if d <? 90 + leap then 2
  else if d <? 120 + leap then 3
  else if d <? 151 + leap then 4
  else if d <? 181 + leap then 5
  else if d <? 212 + leap then 6
  else if d <? 243 + leap then 7
  else if d <? 273 + leap then 8
  else if d <? 304 + leap then 9
  else if d <? 334 + leap then 10
  else 11.

Definition DateFromTime (t : Z) : Z :=
  DayWithinYear t - monthStart (InLeapYear t) (MonthFromTime t) + 1.

Definition WeekDay (t : Z) : Z := (Day t + 4) mod 7.

(** MakeDay: the day number of the first day of month [month] of [year]
    (months beyond 0..11 carry into the year), plus [date - 1].  That first
    day has the fields the language specification asks for (see
    [utcMidnight_fields]). *)
Definition MakeDay (year month date : option Z) : option Z :=
  match year, month, date with
  | Some y, Some m, Some dt =>
      let ym := y + m / 12 in
      let mn := m mod 12 in
      Some (DayFromYear ym + monthStart (leapDay ym) mn + dt - 1)
  | _, _, _ => None
  end.

Definition MakeDate (day time : option Z) : option Z :=
  num_add (num_mul day (Some msPerDay)) time.

Definition TimeClip (time : option Z) : option Z :=
  match time with
  | Some t => if 8640000000000000 <? Z.abs t then None else Some t
  | None => None
  end.

(** MakeFullYear: a year from 0 to 99 means 1900 + year. *)
Definition MakeFullYear (year : option Z) : option Z :=
  match year with
  | Some y => if (0 <=? y) && (y <=? 99) then Some (1900 + y) else Some y
  | None => None
  end.

(** [Date.UTC(year, month, date)]; the time of day is 0. *)
Definition Date_UTC (year month date : option Z) : option Z :=
  let yr := MakeFullYear year in
  TimeClip (MakeDate (MakeDay yr month date) (Some 0)).

(** [new Date(value)] for a Number. *)
Definition newDate (value : option Z) : option Z := TimeClip value.

(** *** Rendering *)

Definition weekdayName (d : Z) : string :=
  match d with
  | 0 => "Sun" | 1 => "Mon" | 2 => "Tue" | 3 => "Wed"
  | 4 => "Thu" | 5 => "Fri" | _ => "Sat"
  end.

Definition monthName (m : Z) : string :=
  match m with
  | 0 => "Jan" | 1 => "Feb" | 2 => "Mar" | 3 => "Apr"
  | 4 => "May" | 5 => "Jun" | 6 => "Jul" | 7 => "Aug"
  | 8 => "Sep" | 9 => "Oct" | 10 => "Nov" | _ => "Dec"
  end.

Fixpoint zeros (k : nat) : string :=
  match k with
  | O => ""
  | S k' => String "0" (zeros k')
  end.

(** ToZeroPaddedDecimalString. *)
Definition zeroPad (n : Z) (minLength : nat) : string :=
  let s := showNat n in
  zeros (minLength - String.length s) ++ s.

(** DateString of a local time. *)
Definition DateString (t : Z) : string :=
  let yv := YearFromTime t in
  weekdayName (WeekDay t) ++ " " ++ monthName (MonthFromTime t) ++ " "
  ++ zeroPad (DateFromTime t) 2 ++ " "
  ++ (if 0 <=? yv then "" else "-") ++ zeroPad (Z.abs yv) 4.

(** *** The date-only ISO form [YYYY-MM-DD] *)

Definition decDigit (c : ascii) : option Z := digitIn 10 c.

Definition DaysInMonth (y m : Z) : Z :=
  match m with
  | 2 => 28 + leapDay y
  | 4 | 6 | 9 | 11 => 30
  | _ => 31
  end.

(** The fields of a string of the exact shape [dddd-dd-dd]. *)
Definition isoFields (s : string) : option (Z * Z * Z) :=
  match s with
  | String y1 (String y2 (String y3 (String y4 (String "-"
      (String m1 (String m2 (String "-"
        (String d1 (String d2 EmptyString))))))))) =>
      y1 ← decDigit y1; y2 ← decDigit y2; y3 ← decDigit y3;
      y4 ← decDigit y4; m1 ← decDigit m1; m2 ← decDigit m2;
      d1 ← decDigit d1; d2 ← decDigit d2;
      Some (1000 * y1 + 100 * y2 + 10 * y3 + y4, 10 * m1 + m2, 10 * d1 + d2)
  | _ => None
  end.

(** The fields name a day of the calendar. *)
Definition validYMD (y m d : Z) : bool :=
  (1 <=? m) && (m <=? 12) && (1 <=? d) && (d <=? DaysInMonth y m).

(** The time value of UTC midnight of a calendar day. *)
Definition utcMidnight (y m d : Z) : Z :=
  msPerDay * (DayFromYear y + monthStart (leapDay y) (m - 1) + d - 1).

(** [split] on a one-character separator. *)
Fixpoint split (sep : ascii) (s : string) : list string :=
  match s with
  | EmptyString => [""]
  | String c r =>
      if Ascii.eqb c sep then "" :: split sep r
      else match split sep r with
           | h :: t => String c h :: t
           | [] => [String c ""]
           end
  end.

(** [parts[i]]: a string, or [undefined] past the end. *)
Definition index (parts : list string) (i : nat) : value :=
  match parts !! i with
  | Some p => VStr p
  | None => VUndefined
  end.

(** What the repository leaves to the runtime: [tzMinutes t] is the offset
    of local time from UTC, in minutes east of Greenwich, in force at UTC
    time [t] (it varies with [t] in a zone that observes daylight saving
    time); [legacyDateParse] is what [Date.parse] does with a string that
    is not in the date-only ISO form (other forms and fallbacks are up to
    the implementation). *)
Class Locale : Type := {
  tzMinutes : Z -> Z;
  legacyDateParse : string -> option Z
}.

Section LocalTime.

Context {locale : Locale}.

Definition LocalTZA (t : Z) : Z := tzMinutes t * msPerMinute.

Definition LocalTime (t : Z) : Z := t + LocalTZA t.

Definition getTime (tv : option Z) : option Z := tv.

Definition getTimezoneOffset (tv : option Z) : option Z :=
  match tv with
  | Some t => Some ((t - LocalTime t) / msPerMinute)
  | None => None
  end.

Definition toDateString (tv : option Z) : string :=
  match tv with
  | Some t => DateString (LocalTime t)
  | None => "Invalid Date"
  end.

(** [new Date(s)] for a string: a valid [YYYY-MM-DD] is UTC midnight of
    that day. *)
Definition Date_parse (s : string) : option Z :=
  match isoFields s with
  | Some (y, m, d) =>
      if validYMD y m d then TimeClip (Some (utcMidnight y m d))
      else legacyDateParse s
  | None => legacyDateParse s
  end.

End LocalTime.

End JSDate.

Import JSDate.

(** ** The date normaliser *)

Section CheckDate.

Context {locale : Locale}.

(** [checkDate] of [index.js]; [now] is what [Date.now()] returns.  The
    result is [None] when the call throws: [date.split] is not a function
    for a truthy [date] that is not a string. *)
Definition checkDate (now : Z) (date : value) : option string :=
  if negb (truthy date) then
    Some (toDateString (newDate (Some now)))
  else
    match date with
    | VStr s =>
        let parts := split "-" s in
        let year := parseInt (index parts 0) None in
        let month := num_sub (parseInt (index parts 1) None) (Some 1) in
        let day := parseInt (index parts 2) None in
        let utcDate := newDate (Date_UTC year month day) in
        Some (toDateString
                (newDate (num_add (getTime utcDate)
                            (num_mul (getTimezoneOffset utcDate)
                                     (Some 60000)))))
    | _ => None
    end.

End CheckDate.


(** ** Arrays *)

(** [arr.slice(start, end)]: a NaN bound is 0, a negative bound counts from
    the end, and both are clamped to the array. *)
Definition slice {A : Type} (arr : list A) (start end_ : option Z) : list A :=
  let len := Z.of_nat (length arr) in
  let clamp (x : option Z) : Z :=
    let r := match x with Some r => r | None => 0 end in
    if r <? 0 then Z.max (len + r) 0 else Z.min r len in
  let k := clamp start in
  let final := clamp end_ in
  take (Z.to_nat (Z.max (final - k) 0)) (drop (Z.to_nat k) arr).

(** ** The store and the handlers *)

Definition ObjectId : Type := string.

(** A query parameter of [req.query]: absent, or a string. *)
Definition qvalue (q : option string) : value :=
  match q with
  | Some s => VStr s
  | None => VUndefined
  end.

Definition dquote : string := String (ascii_of_nat 34) EmptyString.

Inductive storeError : Type :=
  | DuplicateKey      (* error.code = 11000 *)
  | ValidationError   (* a required path is missing *)
  | CastError         (* a value does not cast to the type of its path *)
  | Unavailable.      (* the store cannot be reached *)

(** What a request finds around it: the clock, the identifier the driver
    generates for a new document, and the store call of the request (the
    first is 0) that fails because the store cannot be reached, if any. *)
Record env : Type := {
  now : Z;
  newId : ObjectId;
  fault : option nat
}.

(** Mongoose, as far as the handlers use it: the type of a stored Number,
    [mongoose.Types.ObjectId.isValid], and the casts of the [String] and
    [Number] paths of a schema ([None]: the value does not cast, or is
    null). *)
Class Mongoose : Type := {
  number : Type;
  ObjectId_isValid : string -> bool;
  castString : value -> option string;
  castNumber : value -> option number
}.

Section Server.

Context {locale : Locale} {mongoose : Mongoose}.

(** [ExerciseSchema] and [UserSchema]. *)
Record Exercise : Type := {
  e_id : ObjectId;
  e_userId : ObjectId;
  e_description : string;
  e_duration : number;
  e_date : Z
}.

Record User : Type := {
  u_id : ObjectId;
  u_username : string;
  u_log : list Exercise
}.

(** The two collections, keyed by [_id]. *)
Record Db : Type := {
  Users : gmap ObjectId User;
  Exercises : gmap ObjectId Exercise
}.

Definition emptyDb : Db := {| Users := ∅; Exercises := ∅ |}.

(** *** Store operations *)

Definition reachable (e : env) (call : nat) : bool :=
  negb (bool_decide (fault e = Some call)).

(** [User.create({ username })]: [username] is required. *)
Definition User_create (e : env) (call : nat) (db : Db) (username : value)
  : storeError + (User * Db) :=
  if negb (reachable e call) then inl Unavailable
  else
    match castString username with
    | None => inl ValidationError
    | Some name =>
        if String.eqb name "" then inl ValidationError
        else
          match Users db !! newId e with
          | Some _ => inl DuplicateKey
          | None =>
              let user :=
                {| u_id := newId e; u_username := name; u_log := [] |} in
              inr (user, {| Users := <[newId e := user]> (Users db);
                            Exercises := Exercises db |})
          end
    end.

(** [User.find()]. *)
Definition User_find (e : env) (call : nat) (db : Db)
  : storeError + list User :=
  if negb (reachable e call) then inl Unavailable
  else inr ((map_to_list (Users db)).*2).

(** [User.findOne({ _id })] and [User.findById({ _id })]: the filter is
    cast to the schema first. *)
Definition User_findOne (e : env) (call : nat) (db : Db) (_id : string)
  : storeError + option User :=
  if negb (reachable e call) then inl Unavailable
  else if negb (ObjectId_isValid _id) then inl CastError
  else inr (Users db !! _id).

(** [Exercise.create({ userId, description, duration, date })]. *)
Definition Exercise_create (e : env) (call : nat) (db : Db)
    (userId : string) (description duration : value) (date : string)
  : storeError + (Exercise * Db) :=
  if negb (reachable e call) then inl Unavailable
  else if negb (ObjectId_isValid userId) then inl CastError
  else
    match castString description, castNumber duration,
          Date_parse date with
    | Some descr, Some dur, Some t =>
        match Exercises db !! newId e with
        | Some _ => inl DuplicateKey
        | None =>
            let ex := {| e_id := newId e; e_userId := userId;
                         e_description := descr; e_duration := dur;
                         e_date := t |} in
            inr (ex, {| Users := Users db;
                        Exercises := <[newId e := ex]> (Exercises db) |})
        end
    | _, _, _ => inl CastError
    end.

(** [user.save()]. *)
Definition User_save (e : env) (call : nat) (db : Db) (user : User)
  : storeError + Db :=
  if negb (reachable e call) then inl Unavailable
  else inr {| Users := <[u_id user := user]> (Users db);
              Exercises := Exercises db |}.

(** *** Responses *)

(** The bodies the handlers pass to [res.json].  The listing of the users
    also carries the store's version counter [__v] of each user, which is
    left out here. *)
Record logEntry : Type := {
  description : string;
  duration : number;
  date : string
}.

Inductive body : Type :=
  | BString (s : string)
  | BMessage (message : string)
  | BUser (username : string) (_id : ObjectId)
  | BUsers (users : list (string * ObjectId))
  | BExercise (_id : ObjectId) (username description : string)
      (duration : number) (date : string)
  | BLog (_id : string) (username : string) (count : nat)
      (log : list logEntry).

Record response : Type := {
  status : Z;
  payload : body
}.

(** What a handler leaves behind: a response, or an exception that
    escapes it (the handlers are [async]: the promise is rejected and the
    handler itself sends nothing). *)
Inductive outcome : Type :=
  | Responded (r : response)
  | Uncaught.

(** [res.json(b)]: the status of a response is 200 unless [res.status] is
    called, which no handler does. *)
Definition res_json (b : body) : outcome :=
  Responded {| status := 200; payload := b |}.

(** *** POST /api/users *)

Definition postUsers (e : env) (db : Db) (newUsername : value)
  : outcome * Db :=
  match User_create e 0 db newUsername with
  | inr (user, db') => (res_json (BUser (u_username user) (u_id user)), db')
  | inl DuplicateKey => (res_json (BMessage "Duplicate record."), db)
  | inl _ => (res_json (BMessage "Unable to create new user."), db)
  end.

(** *** GET /api/users *)

Definition getUsers (e : env) (db : Db) : outcome * Db :=
  match User_find e 0 db with
  | inr allUsers =>
      (res_json (BUsers (map (fun user => (u_username user, u_id user))
                             allUsers)), db)
  | inl _ => (res_json (BString "Unable to fetch all users."), db)
  end.

(** *** POST /api/users/:_id/exercises *)

Definition push (user : User) (ex : Exercise) : User :=
  {| u_id := u_id user; u_username := u_username user;
     u_log := u_log user ++ [ex] |}.

Definition postExercises (e : env) (db : Db) (_id : string)
    (description duration date : value) : outcome * Db :=
  if negb (ObjectId_isValid _id) then
    (res_json (BString "Invalid user ID."), db)
  else
    match checkDate (now e) date with
    | None => (Uncaught, db)
    | Some date =>
        if negb (truthy duration) || negb (truthy description) then
          (res_json (BString "Missing fields."), db)
        else if negb (isValidDuration duration) then
          (res_json (BString ("The duration " ++ dquote
                              ++ ToString duration ++ dquote
                              ++ " is not valid; must be in minutes")), db)
        else
          match User_findOne e 0 db _id with
          | inl _ => (res_json (BString "Unable to add exercise."), db)
          | inr None => (res_json (BString "User not found."), db)
          | inr (Some user) =>
              match Exercise_create e 1 db _id description duration date with
              | inl _ => (res_json (BString "Unable to add exercise."), db)
              | inr (newExercise, db1) =>
                  let user := push user newExercise in
                  match User_save e 2 db1 user with
                  | inl _ =>
                      (res_json (BString "Unable to add exercise."), db1)
                  | inr db2 =>
                      (res_json
                         (BExercise (u_id user) (u_username user)
                            (e_description newExercise)
                            (e_duration newExercise)
                            (toDateString
                               (newDate (Some (e_date newExercise))))),
                       db2)
                  end
              end
          end
    end.

(** *** GET /api/users/:_id/logs *)

(** [new Date(q)] for a query parameter; [new Date(undefined)] is an
    invalid date. *)
Definition newDateOf (q : option string) : option Z :=
  match q with
  | Some s => Date_parse s
  | None => None
  end.

(** The filtering and limiting of the [logs] array. *)
Definition filterLog (logs : list Exercise) (from to limit : option string)
  : list Exercise :=
  let logs :=
    if truthy (qvalue from) && truthy (qvalue to) then
      let fromDate := newDateOf from in
      let toDate := newDateOf to in
      List.filter
        (fun log =>
           let logDate := Some (e_date log) in
           num_ge logDate fromDate && num_le logDate toDate)
        logs
    else logs in
  if truthy (qvalue limit) then
    slice logs (Some 0) (parseInt (qvalue limit) (Some 10))
  else logs.

Definition formatLog (log : Exercise) : logEntry :=
  {| description := e_description log;
     duration := e_duration log;
     date := toDateString (Some (e_date log)) |}.

Definition getLogs (e : env) (db : Db) (userId : string)
    (from to limit : option string) : outcome * Db :=
  match User_findOne e 0 db userId with
  | inl _ => (res_json (BString "Could not get user las log data."), db)
  | inr None => (res_json (BString "User not found."), db)
  | inr (Some user) =>
      let logs := filterLog (u_log user) from to limit in
      let formattedLogs := map formatLog logs in
      (res_json (BLog userId (u_username user) (length formattedLogs)
                   formattedLogs), db)
  end.

(** *** The API *)

(** A request with its route parameter and the fields the handler reads
    from the parsed body or query. *)
Inductive request : Type :=
  | PostUsers (username : value)
  | GetUsers
  | PostExercises (_id : string) (description duration date : value)
  | GetLogs (_id : string) (from to limit : option string).

Definition handle (e : env) (db : Db) (req : request) : outcome * Db :=
  match req with
  | PostUsers username => postUsers e db username
  | GetUsers => getUsers e db
  | PostExercises _id description duration date =>
      postExercises e db _id description duration date
  | GetLogs _id from to limit => getLogs e db _id from to limit
  end.

(** The store after a sequence of requests, each in its environment. *)
Fixpoint run (db : Db) (reqs : list (env * request)) : Db :=
  match reqs with
  | [] => db
  | (e, req) :: rest => run (handle e db req).2 rest
  end.

End Server.

(** ** Notions used in the statements *)

(** The number a string of decimal digits denotes, from [acc] on. *)
Fixpoint digitString (s : string) (acc : Z) : option Z :=
  match s with
  | EmptyString => Some acc
  | String c r =>
      match digitIn 10 c with
      | Some d => digitString r (acc * 10 + d)
      | None => None
      end
  end.

(** The number a plain decimal numeral [[-]ddd[.ddd]] denotes, as a pair
    [(m, k)] that stands for [m / 10^k]; other strings denote nothing
    here. *)
Definition decimalValue (s : string) : option (Z * nat) :=
  let '(sign, s) :=
    match s with String "-" r => (-1, r) | _ => (1, s) end in
  match split "." s with
  | [i] =>
      if String.eqb i "" then None
      else m ← digitString i 0; Some (sign * m, O)
  | [i; f] =>
      if String.eqb i "" || String.eqb f "" then None
      else m ← digitString (i ++ f) 0; Some (sign * m, String.length f)
  | _ => None
  end.


(** A string of decimal digits. *)
Fixpoint decimal (s : string) : bool :=
  match s with
  | EmptyString => true
  | String c r => bool_decide (is_Some (digitIn 10 c)) && decimal r
  end.

(** The day [y]-[m]-[d] written [yyyy-mm-dd]. *)
Definition isoDate (y m d : Z) : string :=
  zeroPad y 4 ++ "-" ++ zeroPad m 2 ++ "-" ++ zeroPad d 2.

Section Notions.

Context {locale : Locale} {mongoose : Mongoose}.

(** A query parameter counts as given when it is truthy. *)
Definition present (q : option string) : bool := truthy (qvalue q).

(** The spec's reading of the range: an entry is kept when its calendar day
    (the day number of its instant) lies between the days of the bounds. *)
Definition keptByDay (f t : Z) (logs : list Exercise) : list Exercise :=
  List.filter
    (fun log => (Day f <=? Day (e_date log)) && (Day (e_date log) <=? Day t))
    logs.


(** A document is stored under its own [_id]. *)
Definition keyed (db : Db) : Prop :=
  forall id user, Users db !! id = Some user -> u_id user = id.

(** Every exercise in a user's log names that user. *)
Definition logsOwned (db : Db) : Prop :=
  forall id user,
    Users db !! id = Some user ->
    Forall (fun ex => e_userId ex = u_id user) (u_log user).

Definition consistent (db : Db) : Prop := keyed db /\ logsOwned db.

End Notions.

(** ** Sample runtimes *)

Definition monthOfName (s : string) : option Z :=
  if String.eqb s "Jan" then Some 1 else if String.eqb s "Feb" then Some 2
  else if String.eqb s "Mar" then Some 3 else if String.eqb s "Apr" then Some 4
  else if String.eqb s "May" then Some 5 else if String.eqb s "Jun" then Some 6
  else if String.eqb s "Jul" then Some 7 else if String.eqb s "Aug" then Some 8
  else if String.eqb s "Sep" then Some 9 else if String.eqb s "Oct" then Some 10
  else if String.eqb s "Nov" then Some 11
  else if String.eqb s "Dec" then Some 12 else None.

(** A legacy parser that reads back the form of [toDateString],
    [Www Mmm dd yyyy] with a year from 100 on, as local midnight, and takes
    nothing else for a date.  [offsetAt] gives the zone's offset, in
    minutes, at a local time. *)
Definition dateStringParse (offsetAt : Z -> Z) (s : string) : option Z :=
  match split " " s with
  | [_; mon; dd; yyyy] =>
      m ← monthOfName mon;
      d ← digitString dd 0;
      y ← digitString yyyy 0;
      if validYMD y m d && (100 <=? y) then
        let tl := utcMidnight y m d in
        Some (tl - offsetAt tl * msPerMinute)
      else None
  | _ => None
  end.

(** A zone with a fixed offset. *)
Definition fixedZone (minutes : Z) : Locale :=
  {| tzMinutes := fun _ => minutes;
     legacyDateParse := dateStringParse (fun _ => minutes) |}.

(** New South Wales around the start of daylight saving time in 2023:
    UTC+10 until 2023-09-30T16:00:00Z (02:00 local time on 1 October),
    UTC+11 from then on. *)
Definition sydney2023 : Locale :=
  {| tzMinutes := fun t => if t <? 1696089600000 then 600 else 660;
     legacyDateParse :=
       dateStringParse (fun tl => if tl <? 1696125600000 then 600 else 660) |}.

Fixpoint allHex (s : string) : bool :=
  match s with
  | EmptyString => true
  | String c r =>
      match digitIn 16 c with
      | Some _ => allHex r
      | None => false
      end
  end.

(** A store whose ObjectIds are the strings of 24 hexadecimal digits, whose
    String cast is ToString on what is not null, and whose Number cast takes
    integers and plain integer numerals. *)
Definition sampleMongoose : Mongoose :=
  {| number := Z;
     ObjectId_isValid := fun s => (String.length s =? 24)%nat && allHex s;
     castString := fun v =>
       match v with
       | VUndefined | VNull => None
       | _ => Some (ToString v)
       end;
     castNumber := fun v =>
       match v with
       | VNum n => Some n
       | VStr s =>
           match decimalValue s with
           | Some (m, O) => Some m
           | _ => None
           end
       | _ => None
       end |}.

Definition alice : ObjectId := "64b7f0a1c2d3e4f5a6b7c8d9".
Definition run1 : ObjectId := "64b7f0a1c2d3e4f5a6b7c8da".
Definition nobody : ObjectId := "64b7f0a1c2d3e4f5a6b7c8ff".

Definition at_ (id : ObjectId) : env :=
  {| now := 1682935200000; newId := id; fault := None |}.

Section Sample.

#[local] Existing Instance sampleMongoose.

Definition withAlice (locale : Locale) : Db :=
  run emptyDb [(at_ alice, PostUsers (VStr "Alice"))].

Definition withRun (locale : Locale) : Db :=
  run emptyDb
    [(at_ alice, PostUsers (VStr "Alice"));
     (at_ run1,
      PostExercises alice (VStr "run") (VNum 30) (VStr "2023-05-01"))].

(** An exercise of 2023-01-31, 10:00 UTC. *)
Definition lateRun : Exercise :=
  {| e_id := run1; e_userId := alice; e_description := "run";
     e_duration := 30; e_date := 1675159200000 |}.

(** The exercise of [withRun] in a zone at UTC, and its user. *)
Definition mayRun : Exercise :=
  {| e_id := run1; e_userId := alice; e_description := "run";
     e_duration := 30; e_date := 1682899200000 |}.

Definition aliceDoc : User :=
  {| u_id := alice; u_username := "Alice"; u_log := [mayRun] |}.

(** Alice as she is created. *)
Definition aliceNew : User :=
  {| u_id := alice; u_username := "Alice"; u_log := [] |}.

(** A driver whose third store call fails. *)
Definition saveFails : env :=
  {| now := 1682935200000; newId := run1; fault := Some 2%nat |}.

(** Alice and a user of a test. *)
Definition twoUsers (locale : Locale) : Db :=
  run emptyDb
    [(at_ alice, PostUsers (VStr "Alice"));
     (at_ nobody, PostUsers (VStr "testUSER1"))].

End Sample.

(** ** The earlier version of the server

    The earlier [index.js] has the same handlers for the users; its Add
    Exercise handler checks the format of the date instead of normalising
    it, and answers with the last entry of the log as the store returns
    it. *)

Definition isDigit (c : ascii) : bool := (48 <=? code c) && (code c <=? 57).

(** [isDateFormatValid]: [/^\d{4}-\d{2}-\d{2}$/.test(dateString)].  Without
    flags, [\d] is a decimal digit and [$] is the end of the string. *)
Definition isDateFormatValid (dateString : value) : bool :=
  match ToString dateString with
  | String y1 (String y2 (String y3 (String y4 (String s1
      (String m1 (String m2 (String s2
        (String d1 (String d2 EmptyString))))))))) =>
      isDigit y1 && isDigit y2 && isDigit y3 && isDigit y4
      && Ascii.eqb s1 "-" && isDigit m1 && isDigit m2
      && Ascii.eqb s2 "-" && isDigit d1 && isDigit d2
  | _ => false
  end.

(** [s.padStart(2, "0")]. *)
Definition padStart2 (s : string) : string :=
  zeros (2 - String.length s) ++ s.

Section EarlierVersion.

Context {locale : Locale} {mongoose : Mongoose}.

(** The date the earlier handler takes when none is given: the local year,
    month and day of the clock, written [year-mm-dd]. *)
Definition defaultDate (now : Z) : string :=
  let currentDate := LocalTime now in
  let year := YearFromTime currentDate in
  let month := padStart2 (Number_toString (MonthFromTime currentDate + 1)) in
  let day := padStart2 (Number_toString (DateFromTime currentDate)) in
  Number_toString year ++ "-" ++ month ++ "-" ++ day.

(** The bodies of the earlier Add Exercise handler; the date of its result
    is the stored Date itself. *)
Inductive body1 : Type :=
  | B1String (s : string)
  | B1Message (message : string)
  | B1Exercise (_id : ObjectId) (username : string) (date : Z)
      (duration : number) (description : string).

Record response1 : Type := {
  status1 : Z;
  payload1 : body1
}.

Definition res_json1 (b : body1) : response1 :=
  {| status1 := 200; payload1 := b |}.

(** The first [try] block: [inl] is a [return res.json(...)] inside it or
    in its [catch], [inr] is the store it leaves when control goes on.  The
    store calls of the handler are numbered 0 to 3. *)
Definition addExercise1 (e : env) (db : Db) (_id : string)
    (description duration : value) (date : string)
  : response1 * Db + Db :=
  match User_findOne e 0 db _id with
  | inl _ => inl (res_json1 (B1String "Unable to add exercise."), db)
  | inr None => inl (res_json1 (B1String "User not found."), db)
  | inr (Some user) =>
      match Exercise_create e 1 db _id description duration date with
      | inl _ => inl (res_json1 (B1String "Unable to add exercise."), db)
      | inr (newExercise, db1) =>
          match User_save e 2 db1 (push user newExercise) with
          | inl _ =>
              inl (res_json1 (B1String "Unable to add exercise."), db1)
          | inr db2 => inr db2
          end
      end
  end.

(** The second [try] block: the user is read again and the last entry of
    its log is returned; reading a field of the missing last entry of an
    empty log throws. *)
Definition lastLogEntry1 (e : env) (db : Db) (_id : string) : response1 :=
  match User_findOne e 3 db _id with
  | inl _ => res_json1 (B1String "Could not get user las log data.")
  | inr None => res_json1 (B1Message "User not found.")
  | inr (Some user) =>
      match last (u_log user) with
      | None => res_json1 (B1String "Could not get user las log data.")
      | Some lastLogEntry =>
          res_json1
            (B1Exercise (u_id user) (u_username user) (e_date lastLogEntry)
               (e_duration lastLogEntry) (e_description lastLogEntry))
      end
  end.

(** POST /api/users/:_id/exercises of the earlier version. *)
Definition postExercises1 (e : env) (db : Db) (_id : string)
    (description duration date : value) : response1 * Db :=
  let date :=
    if negb (truthy date) then VStr (defaultDate (now e)) else date in
  if negb (isDateFormatValid date) then
    (res_json1 (B1String ("The date " ++ dquote ++ ToString date ++ dquote
                          ++ " is not in the correct format.")), db)
  else if negb (truthy duration) || negb (truthy description) then
    (res_json1 (B1String "Missing fields."), db)
  else if negb (isValidDuration duration) then
    (res_json1 (B1String ("The duration " ++ dquote ++ ToString duration
                          ++ dquote ++ " is not valid; must be in minutes")),
     db)
  else
    match addExercise1 e db _id description duration (ToString date) with
    | inl answered => answered
    | inr db2 => (lastLogEntry1 e db2 _id, db2)
    end.

End EarlierVersion.

(** ** Maintenance of the store

    [deleteMany] and [deleteAllExerciseLogs] of [index.js]; no route calls
    them. *)

(** The lower-case form of an ASCII letter; other code units stay. *)
Definition lower (c : ascii) : ascii :=
  if (65 <=? code c) && (code c <=? 90) then charOfCode (code c + 32) else c.

(** [p] matches at the start of [s], the letters of ASCII compared without
    case.  How the store compares characters outside ASCII is not
    modelled; the properties of [deleteMany] are stated for names in
    ASCII. *)
Fixpoint prefixCI (p s : string) : bool :=
  match p, s with
  | EmptyString, _ => true
  | String a p', String b s' => Ascii.eqb (lower a) (lower b) && prefixCI p' s'
  | String _ _, EmptyString => false
  end.

(** [/p/i] for a literal [p]: [p] matches somewhere in [s]. *)
Fixpoint containsCI (p s : string) : bool :=
  prefixCI p s
  || match s with
     | String _ s' => containsCI p s'
     | EmptyString => false
     end.

Section Maintenance.

Context {locale : Locale} {mongoose : Mongoose}.

(** [User.deleteMany({ username: { $regex: /p/i } })] for a literal [p].
    [None] is the exception of a store that cannot be reached. *)
Definition User_deleteMany (pattern : string) (e : env) (db : Db)
  : option Db :=
  if negb (reachable e 0) then None
  else
    Some {| Users :=
              filter (fun kv => containsCI pattern (u_username kv.2) = false)
                     (Users db);
            Exercises := Exercises db |}.

(** [deleteMany]: the users whose name matches [/user/i] are deleted
    ([/test/i] in the earlier version).  The call is not guarded. *)
Definition deleteMany (e : env) (db : Db) : option Db :=
  User_deleteMany "user" e db.

Definition deleteMany1 (e : env) (db : Db) : option Db :=
  User_deleteMany "test" e db.

(** [deleteAllExerciseLogs]: every document of the Exercise collection is
    deleted; a failure is caught and logged. *)
Definition deleteAllExerciseLogs (e : env) (db : Db) : Db :=
  if negb (reachable e 0) then db
  else {| Users := Users db; Exercises := ∅ |}.

End Maintenance.

(** ** Further notions used in the statements *)

(** A string of white space. *)
Fixpoint allWhite (s : string) : bool :=
  match s with
  | EmptyString => true
  | String c r => isWhiteSpace c && allWhite r
  end.

(** The string does not go on with a decimal digit. *)
Definition noDigitAhead (s : string) : bool :=
  match s with
  | EmptyString => true
  | String c _ => negb (isDigit c)
  end.

(** The string with its letters in lower case. *)
Fixpoint lowerString (s : string) : string :=
  match s with
  | EmptyString => EmptyString
  | String c r => String (lower c) (lowerString r)
  end.

(** The string holds ASCII characters only. *)
Fixpoint isAscii (s : string) : bool :=
  match s with
  | EmptyString => true
  | String c r => (code c <? 128) && isAscii r
  end.

Section FurtherNotions.

Context {locale : Locale} {mongoose : Mongoose}.


End FurtherNotions.

(** * Properties *)

(** ** Decimal printing and [parseInt] *)

Lemma digitIn_charOfCode (d : Z) :
  0 <= d < 10 -> digitIn 10 (charOfCode (48 + d)) = Some d.
Proof.
  intros H.
  assert (d = 0 \/ d = 1 \/ d = 2 \/ d = 3 \/ d = 4 \/ d = 5 \/ d = 6
          \/ d = 7 \/ d = 8 \/ d = 9) as Hd by lia.
  repeat (destruct Hd as [-> | Hd]; [reflexivity |]).
  subst d. reflexivity.
Qed.

Lemma showDigits_parse (fuel : nat) :
  forall (n : Z) (rest : string) (seen : bool),
    0 <= n < 2 ^ (Z.of_nat fuel + 1) ->
    digitsPrefix 10 (showDigits fuel n rest) 0 seen
    = digitsPrefix 10 rest n true.
Proof.
  induction fuel as [| f IH]; intros n rest seen Hn.
  - change (2 ^ (Z.of_nat 0 + 1)) with 2 in Hn.
    simpl. rewrite Z.mod_small by lia.
    rewrite digitIn_charOfCode by lia. reflexivity.
  - cbn [showDigits]. destruct (Z.ltb_spec n 10) as [Hlt | Hge].
    + simpl. rewrite Z.mod_small by lia.
      rewrite digitIn_charOfCode by lia. reflexivity.
    + rewrite IH.
      * cbn [digitsPrefix].
        rewrite digitIn_charOfCode by (apply Z.mod_pos_bound; lia).
        f_equal. pose proof (Z.div_mod n 10). lia.
      * replace (Z.of_nat (S f) + 1) with (Z.succ (Z.of_nat f + 1)) in Hn
          by lia.
        rewrite Z.pow_succ_r in Hn by lia.
        split; [apply Z.div_pos; lia |].
        apply Z.div_lt_upper_bound; lia.
Qed.

Lemma showNat_range (n : Z) :
  0 <= n -> 0 <= n < 2 ^ (Z.of_nat (Z.to_nat (Z.log2 n)) + 1).
Proof.
  intros Hn. rewrite Z2Nat.id by apply Z.log2_nonneg.
  destruct (Z.eq_dec n 0) as [-> | Hne]; [simpl; lia |].
  pose proof (Z.log2_spec n ltac:(lia)) as [_ Hhi].
  unfold Z.succ in Hhi. lia.
Qed.

Lemma showNat_parse (n : Z) (rest : string) (seen : bool) :
  0 <= n ->
  digitsPrefix 10 (showNat n ++ rest) 0 seen = digitsPrefix 10 rest n true.
Proof.
  intros Hn. unfold showNat.
  assert (forall f m acc, showDigits f m acc ++ rest
                          = showDigits f m (acc ++ rest)) as Happ.
  { induction f as [| f IH]; intros m acc; cbn [showDigits].
    - reflexivity.
    - destruct (m <? 10); [reflexivity | apply IH]. }
  rewrite Happ. apply showDigits_parse, showNat_range, Hn.
Qed.

(** A printed natural number starts with a decimal digit. *)
Lemma showDigits_head (fuel : nat) :
  forall (n : Z) (acc : string),
    0 <= n ->
    exists d r, 0 <= d < 10
                /\ showDigits fuel n acc = String (charOfCode (48 + d)) r.
Proof.
  induction fuel as [| f IH]; intros n acc Hn; cbn [showDigits].
  - exists (n mod 10), acc. split; [apply Z.mod_pos_bound; lia | reflexivity].
  - destruct (n <? 10).
    + exists (n mod 10), acc.
      split; [apply Z.mod_pos_bound; lia | reflexivity].
    + apply IH, Z.div_pos; lia.
Qed.

Lemma digit_head_plain (d : Z) (r : string) :
  0 <= d < 10 ->
  trimStart (String (charOfCode (48 + d)) r) = String (charOfCode (48 + d)) r
  /\ stripSign (String (charOfCode (48 + d)) r)
     = (1, String (charOfCode (48 + d)) r).
Proof.
  intros H.
  assert (d = 0 \/ d = 1 \/ d = 2 \/ d = 3 \/ d = 4 \/ d = 5 \/ d = 6
          \/ d = 7 \/ d = 8 \/ d = 9) as Hd by lia.
  repeat (destruct Hd as [-> | Hd]; [split; reflexivity |]).
  subst d. split; reflexivity.
Qed.

Lemma showNat_plain (n : Z) (rest : string) :
  0 <= n ->
  trimStart (showNat n ++ rest) = showNat n ++ rest
  /\ stripSign (showNat n ++ rest) = (1, showNat n ++ rest).
Proof.
  intros Hn. unfold showNat.
  destruct (showDigits_head (Z.to_nat (Z.log2 n)) n "" Hn)
    as (d & r & Hd & ->).
  cbn [append]. apply digit_head_plain, Hd.
Qed.

(** With radix 10 there is no prefix to strip. *)
Lemma parseInt_radix10 (v : value) :
  parseInt v (Some 10)
  = let '(sign, str) := stripSign (trimStart (ToString v)) in
    (fun n => sign * n) <$> digitsPrefix 10 str 0 false.
Proof.
  unfold parseInt. destruct (stripSign (trimStart (ToString v))) as [sign str].
  cbn. destruct (digitsPrefix 10 str 0 false); reflexivity.
Qed.



Lemma append_nil_r (s : string) : s ++ "" = s.
Proof.
  induction s as [| c s IH]; [reflexivity |].
  change (String c (s ++ "") = String c s). now rewrite IH.
Qed.




(** ** The duration validator *)

Example isValidDuration_600 : isValidDuration (VStr "600") = true.
Proof. reflexivity. Qed.

Example isValidDuration_601 : isValidDuration (VStr "601") = false.
Proof. reflexivity. Qed.

Example isValidDuration_abc : isValidDuration (VStr "abc") = false.
Proof. reflexivity. Qed.

Example isValidDuration_frac : isValidDuration (VStr "600.5") = true.
Proof. reflexivity. Qed.

Example isValidDuration_num : isValidDuration (VNum 600) = true.
Proof. vm_compute. reflexivity. Qed.





(** ** Arrays *)

Lemma slice_prefix {A : Type} (arr : list A) (n : Z) :
  0 <= n -> slice arr (Some 0) (Some n) = take (Z.to_nat n) arr.
Proof.
  intros Hn. unfold slice.
  change (0 <? 0) with false. cbv iota.
  destruct (Z.ltb_spec n 0) as [? | _]; [lia |].
  rewrite (Z.min_l 0) by lia. change (Z.to_nat 0) with O. rewrite drop_0.
  destruct (Z.le_gt_cases n (Z.of_nat (length arr))) as [Hle | Hgt].
  - f_equal. lia.
  - rewrite !take_ge by lia. reflexivity.
Qed.

Lemma slice_NaN {A : Type} (arr : list A) : slice arr (Some 0) None = [].
Proof.
  unfold slice. change (0 <? 0) with false. cbv iota.
  rewrite Z.min_l by lia. reflexivity.
Qed.

Lemma filter_sublist {A : Type} (f : A -> bool) (l : list A) :
  List.filter f l `sublist_of` l.
Proof.
  induction l as [| x l IH]; cbn; [constructor |].
  destruct (f x); [apply sublist_skip | apply sublist_cons]; exact IH.
Qed.

(** ** The log filter *)

Section FilterLog.

Context {locale : Locale} {mongoose : Mongoose}.

Implicit Types (logs : list Exercise) (from to limit : option string).

Lemma present_Some (s : string) : present (Some s) = true <-> s <> "".
Proof.
  unfold present. cbn. rewrite negb_true_iff.
  destruct (String.eqb_spec s ""); split; congruence.
Qed.

(** Without a limit and with both bounds, the filter compares instants. *)
Lemma filterLog_bounds logs (from to : string) :
  from <> "" -> to <> "" ->
  filterLog logs (Some from) (Some to) None
  = List.filter
      (fun log => num_ge (Some (e_date log)) (Date_parse from)
                  && num_le (Some (e_date log)) (Date_parse to))
      logs.
Proof.
  intros Hf%present_Some Ht%present_Some. unfold filterLog.
  fold (present (Some from)) (present (Some to)). rewrite Hf, Ht.
  reflexivity.
Qed.

(** With at most one bound, nothing is filtered by date. *)
Lemma filterLog_no_range logs from to limit :
  present from && present to = false ->
  filterLog logs from to limit
  = if present limit
    then slice logs (Some 0) (parseInt (qvalue limit) (Some 10))
    else logs.
Proof.
  intros H. unfold filterLog.
  fold (present from) (present to) (present limit). now rewrite H.
Qed.

(** The limit is applied to what the range left. *)
Lemma filterLog_limit logs from to limit :
  filterLog logs from to limit
  = if present limit
    then slice (filterLog logs from to None) (Some 0)
           (parseInt (qvalue limit) (Some 10))
    else filterLog logs from to None.
Proof. reflexivity. Qed.

(** C2 (amended): with both bounds present and parsing to the instants [f]
    and [t], the filter keeps exactly the entries whose instant lies in
    [[f, t]], in their original order; the comparison is between instants,
    not between calendar days. *)
Theorem filterLog_range logs (from to : string) (f t : Z) :
  from <> "" -> to <> "" ->
  Date_parse from = Some f -> Date_parse to = Some t ->
  filterLog logs (Some from) (Some to) None
  = List.filter (fun log => (f <=? e_date log) && (e_date log <=? t)) logs
  /\ filterLog logs (Some from) (Some to) None `sublist_of` logs
  /\ (forall log, In log (filterLog logs (Some from) (Some to) None)
                  <-> In log logs /\ f <= e_date log <= t).
Proof.
  intros Hf Ht Pf Pt. rewrite filterLog_bounds by assumption.
  rewrite Pf, Pt. cbn [num_ge num_le].
  split; [reflexivity |]. split; [apply filter_sublist |].
  intros log. rewrite filter_In, andb_true_iff, !Z.leb_le. reflexivity.
Qed.

(** When a bound is not a date, no entry passes the comparison. *)
Lemma filterLog_invalid_bound logs (from to : string) :
  from <> "" -> to <> "" ->
  Date_parse from = None \/ Date_parse to = None ->
  filterLog logs (Some from) (Some to) None = [].
Proof.
  intros Hf Ht Hnan. rewrite filterLog_bounds by assumption.
  induction logs as [| log logs IH]; [reflexivity |].
  cbn [List.filter]. rewrite IH.
  destruct Hnan as [-> | ->]; cbn [num_ge num_le];
    rewrite ?andb_false_r; reflexivity.
Qed.

(** For entries stored at UTC midnight and bounds at UTC midnight, comparing
    instants is comparing calendar days. *)
Lemma filterLog_range_days logs (from to : string) (f t : Z) :
  from <> "" -> to <> "" ->
  Date_parse from = Some f -> Date_parse to = Some t ->
  f mod msPerDay = 0 -> t mod msPerDay = 0 ->
  Forall (fun log => e_date log mod msPerDay = 0) logs ->
  filterLog logs (Some from) (Some to) None = keptByDay f t logs.
Proof.
  intros Hf Ht Pf Pt Mf Mt Hlogs.
  rewrite filterLog_bounds by assumption. rewrite Pf, Pt.
  cbn [num_ge num_le]. unfold keptByDay. induction Hlogs as [| log logs Hlog _ IH];
    [reflexivity |].
  cbn [List.filter]. rewrite IH.
  replace ((Day f <=? Day (e_date log)) && (Day (e_date log) <=? Day t))
    with ((f <=? e_date log) && (e_date log <=? t)); [reflexivity |].
  unfold Day, msPerDay in *.
  pose proof (Z.div_mod f 86400000 ltac:(lia)).
  pose proof (Z.div_mod t 86400000 ltac:(lia)).
  pose proof (Z.div_mod (e_date log) 86400000 ltac:(lia)).
  f_equal; apply eq_true_iff_eq; rewrite !Z.leb_le; lia.
Qed.

(** C6: when exactly one of [from] and [to] is present, the result is the
    result with neither bound. *)
Theorem filterLog_lone_bound logs from to limit :
  xorb (present from) (present to) = true ->
  filterLog logs from to limit = filterLog logs None None limit.
Proof.
  intros Hxor. rewrite !filterLog_no_range; [reflexivity | reflexivity |].
  destruct (present from), (present to); cbn in Hxor |- *; congruence.
Qed.

Lemma parseInt_present (limit : string) (n : Z) :
  parseInt (VStr limit) (Some 10) = Some n -> present (Some limit) = true.
Proof.
  intros H. apply present_Some. intros ->. discriminate H.
Qed.

(** C7: a limit that parses to [n >= 0] leaves the first [n] entries of the
    (possibly range-filtered) sequence, in order, and all of them when
    there are no more than [n]. *)
Theorem filterLog_limit_prefix logs from to (limit : string) (n : Z) :
  parseInt (VStr limit) (Some 10) = Some n -> 0 <= n ->
  filterLog logs from to (Some limit)
  = take (Z.to_nat n) (filterLog logs from to None)
  /\ (length (filterLog logs from to (Some limit)) <= Z.to_nat n)%nat
  /\ ((length (filterLog logs from to None) <= Z.to_nat n)%nat ->
      filterLog logs from to (Some limit) = filterLog logs from to None).
Proof.
  intros Hparse Hn.
  assert (filterLog logs from to (Some limit)
          = take (Z.to_nat n) (filterLog logs from to None)) as ->.
  { rewrite filterLog_limit, (parseInt_present limit n Hparse).
    cbn [qvalue]. rewrite Hparse. apply slice_prefix, Hn. }
  split; [reflexivity |]. split.
  - rewrite length_take. lia.
  - intros Hlen. apply take_ge, Hlen.
Qed.

(** A limit that is not a number leaves nothing. *)
Lemma filterLog_limit_NaN logs from to (limit : string) :
  limit <> "" -> parseInt (VStr limit) (Some 10) = None ->
  filterLog logs from to (Some limit) = [].
Proof.
  intros Hne Hparse. rewrite filterLog_limit.
  apply present_Some in Hne. rewrite Hne. cbn [qvalue]. rewrite Hparse.
  apply slice_NaN.
Qed.

End FilterLog.

(** ** The handlers *)

Section Handlers.

Context {locale : Locale} {mongoose : Mongoose}.

Implicit Types (e : env) (db : Db) (req : request) (user : User).

(** *** Status codes *)








(** *** Ownership of log entries *)

Lemma emptyDb_consistent : consistent emptyDb.
Proof. split; intros id user Hin; cbn in Hin; simplify_map_eq. Qed.

Lemma consistent_insert (db : Db) (user : User) exs :
  consistent db ->
  Forall (fun ex => e_userId ex = u_id user) (u_log user) ->
  consistent {| Users := <[u_id user := user]> (Users db); Exercises := exs |}.
Proof.
  intros [Hk Ho] Hlog. split; intros id u; cbn [Users];
    rewrite lookup_insert; case_decide; intros Hu; simplify_eq; eauto.
Qed.

Lemma consistent_Exercises (db : Db) exs :
  consistent db -> consistent {| Users := Users db; Exercises := exs |}.
Proof. intros [Hk Ho]. split; intros id u Hu; cbn in Hu; eauto. Qed.

Lemma postUsers_consistent e db username :
  consistent db -> consistent (postUsers e db username).2.
Proof.
  intros Hc. unfold postUsers, User_create.
  repeat (case_match; simplify_eq/=; try assumption).
  apply (consistent_insert db
           {| u_id := newId e; u_username := _; u_log := [] |});
    [assumption | constructor].
Qed.

Lemma postExercises_consistent e db _id description duration date :
  consistent db ->
  consistent (postExercises e db _id description duration date).2.
Proof.
  intros Hc. unfold postExercises, User_findOne, Exercise_create, User_save.
  repeat (case_match; simplify_eq/=; try assumption);
    try (apply consistent_Exercises; assumption).
  match goal with Hu : _ = Some ?u |- _ =>
    pose proof (proj1 Hc _ _ Hu) as Hid;
    pose proof (proj2 Hc _ _ Hu) as Hown;
    apply (consistent_insert db (push u _))
  end.
  - exact Hc.
  - cbn. apply Forall_app. split; [exact Hown |].
    constructor; [cbn; congruence | constructor].
Qed.

Lemma handle_consistent e db req :
  consistent db -> consistent (handle e db req).2.
Proof.
  intros Hc. destruct req; cbn [handle].
  - apply postUsers_consistent, Hc.
  - unfold getUsers. case_match; exact Hc.
  - apply postExercises_consistent, Hc.
  - unfold getLogs. repeat case_match; exact Hc.
Qed.

Lemma run_consistent (reqs : list (env * request)) :
  forall db, consistent db -> consistent (run db reqs).
Proof.
  induction reqs as [| [e req] reqs IH]; intros db Hc; cbn [run];
    [exact Hc |].
  apply IH, handle_consistent, Hc.
Qed.

(** Only Add Exercise extends a log: any other request leaves each user as
    it was, or creates one with an empty log. *)
Lemma other_requests_keep_logs e db req id user :
  (forall _id description duration date,
      req <> PostExercises _id description duration date) ->
  Users (handle e db req).2 !! id = Some user ->
  Users db !! id = Some user \/ u_log user = [].
Proof.
  intros Hreq.
  destruct req as [username | | _id' d1 d2 d3 | _id' from to limit];
    cbn [handle].
  - unfold postUsers, User_create.
    repeat (case_match; simplify_eq/=; auto).
    rewrite lookup_insert. case_decide; intros Hu; simplify_eq; auto.
  - unfold getUsers. case_match; auto.
  - now contradiction (Hreq _id' d1 d2 d3).
  - unfold getLogs. repeat case_match; auto.
Qed.

(** C9: after every sequence of requests against the empty store, every
    exercise in a user's log carries that user's id in [userId]; every
    request preserves this (together with each user being stored under its
    own id); and a request other than Add Exercise leaves each user as it
    was or creates one with an empty log. *)
Theorem log_entries_owned :
  (forall (reqs : list (env * request)) id user,
      Users (run emptyDb reqs) !! id = Some user ->
      Forall (fun ex => e_userId ex = u_id user) (u_log user))
  /\ (forall e db req, consistent db -> consistent (handle e db req).2)
  /\ (forall e db req id user,
        (forall _id description duration date,
            req <> PostExercises _id description duration date) ->
        Users (handle e db req).2 !! id = Some user ->
        Users db !! id = Some user \/ u_log user = []).
Proof.
  split; [| split].
  - intros reqs id user Hu.
    exact (proj2 (run_consistent reqs emptyDb emptyDb_consistent) id user Hu).
  - intros e db req. apply handle_consistent.
  - intros e db req id user. apply other_requests_keep_logs.
Qed.

(** *** GET /api/users/:_id/logs *)

Lemma getLogs_found e db (userId : string) from to limit user :
  reachable e 0 = true -> ObjectId_isValid userId = true ->
  Users db !! userId = Some user ->
  getLogs e db userId from to limit
  = (res_json
       (BLog userId (u_username user)
          (length (filterLog (u_log user) from to limit))
          (map formatLog (filterLog (u_log user) from to limit))), db).
Proof.
  intros Hup Hvalid Hu. unfold getLogs, User_findOne.
  rewrite Hup, Hvalid, Hu. cbn. now rewrite length_map.
Qed.


(** An id that is not an ObjectId does not reach the lookup: the cast of
    the filter throws, and the handler answers from its [catch]. *)
Lemma getLogs_malformed_id e db (userId : string) from to limit :
  ObjectId_isValid userId = false ->
  getLogs e db userId from to limit
  = (res_json (BString "Could not get user las log data."), db).
Proof.
  intros Hvalid. unfold getLogs, User_findOne. rewrite Hvalid.
  destruct (reachable e 0); reflexivity.
Qed.

(** C10: for an existing user, a limit that is present and is not a number
    gives an empty log and a count of 0, whatever the user's log holds. *)
Theorem getLogs_limit_not_a_number e db (userId : string) from to
    (limit : string) user :
  reachable e 0 = true -> ObjectId_isValid userId = true ->
  Users db !! userId = Some user ->
  limit <> "" -> parseInt (VStr limit) (Some 10) = None ->
  (getLogs e db userId from to (Some limit)).1
  = res_json (BLog userId (u_username user) 0 []).
Proof.
  intros Hup Hvalid Hu Hne Hparse.
  rewrite (getLogs_found e db userId from to (Some limit) user) by assumption.
  now rewrite filterLog_limit_NaN.
Qed.

(** *** POST /api/users/:_id/exercises *)

(** A falsy duration, the Number 0 among them, is reported as missing. *)
Lemma postExercises_falsy_duration e db (_id : string)
    description duration date :
  ObjectId_isValid _id = true ->
  is_Some (checkDate (now e) date) ->
  truthy duration = false ->
  postExercises e db _id description duration date
  = (res_json (BString "Missing fields."), db).
Proof.
  intros Hvalid [d Hd] Hfalsy. unfold postExercises.
  now rewrite Hvalid, Hd, Hfalsy.
Qed.

(** What a successful Add Exercise returns and stores. *)
Lemma postExercises_success e db (_id : string) description duration date
    user (day descr : string) (dur : number) (t : Z) :
  fault e = None -> ObjectId_isValid _id = true ->
  Users db !! _id = Some user ->
  checkDate (now e) date = Some day ->
  truthy description = true -> truthy duration = true ->
  isValidDuration duration = true ->
  castString description = Some descr -> castNumber duration = Some dur ->
  Date_parse day = Some t ->
  Exercises db !! newId e = None ->
  let ex := {| e_id := newId e; e_userId := _id; e_description := descr;
               e_duration := dur; e_date := t |} in
  postExercises e db _id description duration date
  = (res_json (BExercise (u_id user) (u_username user) descr dur
                 (toDateString (newDate (Some t)))),
     {| Users := <[u_id user := push user ex]> (Users db);
        Exercises := <[newId e := ex]> (Exercises db) |}).
Proof.
  intros Hup Hvalid Hu Hday Hdescr Hdur Hok Hcs Hcn Ht Hfresh ex.
  unfold postExercises, User_findOne, Exercise_create, User_save, reachable.
  rewrite Hvalid, Hday, Hdescr, Hdur, Hok, Hup, Hu, Hcs, Hcn, Ht, Hfresh.
  reflexivity.
Qed.

End Handlers.



(** ** The calendar *)

Lemma DayFromYear_bounds (y : Z) :
  146097 * (y - 1970) - 607 <= 400 * DayFromYear y
  /\ 400 * DayFromYear y <= 146097 * (y - 1970) + 593.
Proof. unfold DayFromYear. Z.div_mod_to_equations. lia. Qed.

Lemma DayFromYear_succ (y : Z) :
  DayFromYear (y + 1) = DayFromYear y + DaysInYear y.
Proof.
  unfold DayFromYear, DaysInYear.
  repeat match goal with
         | |- context [Z.eqb ?a ?b] => destruct (Z.eqb_spec a b); cbn [negb]
         end; Z.div_mod_to_equations; lia.
Qed.

Lemma DayFromYear_mono (a b : Z) : a <= b -> DayFromYear a <= DayFromYear b.
Proof. unfold DayFromYear. intros H. Z.div_mod_to_equations. lia. Qed.

(** [YearFromTime t] is the year whose days contain [t]: the largest [y]
    with [TimeFromYear y <= t]. *)
Lemma YearFromTime_spec (t : Z) :
  DayFromYear (YearFromTime t) <= Day t < DayFromYear (YearFromTime t + 1).
Proof.
  unfold YearFromTime. set (d := Day t).
  set (c := 1970 + d * 400 / 146097).
  pose proof (DayFromYear_bounds (c - 1)) as [_ Hlo].
  pose proof (DayFromYear_bounds (c + 1 + 1)) as [Hhi _].
  assert (146097 * (c - 1970) <= 400 * d < 146097 * (c - 1970) + 146097)
    as Hc by (unfold c; Z.div_mod_to_equations; lia).
  destruct (Z.ltb_spec d (DayFromYear c)) as [Hlt | Hge].
  - replace (c - 1 + 1) with c by lia. lia.
  - destruct (Z.leb_spec (DayFromYear (c + 1)) d) as [Hle | Hgt]; lia.
Qed.

Lemma YearFromTime_unique (t y : Z) :
  DayFromYear y <= Day t < DayFromYear (y + 1) -> YearFromTime t = y.
Proof.
  intros Hy. pose proof (YearFromTime_spec t) as Hs.
  destruct (Z.lt_trichotomy (YearFromTime t) y) as [Hlt | [Heq | Hgt]];
    [| exact Heq |].
  - pose proof (DayFromYear_mono (YearFromTime t + 1) y ltac:(lia)). lia.
  - pose proof (DayFromYear_mono (y + 1) (YearFromTime t) ltac:(lia)). lia.
Qed.

Lemma TimeFromYear_le (t : Z) :
  TimeFromYear (YearFromTime t) <= t < TimeFromYear (YearFromTime t + 1).
Proof.
  pose proof (YearFromTime_spec t) as Hs. unfold TimeFromYear, Day, msPerDay in *.
  Z.div_mod_to_equations. lia.
Qed.

Local Ltac eval_pred :=
  repeat match goal with
         | |- context [Z.sub (Zpos ?p) 1] =>
             let v := eval vm_compute in (Z.sub (Zpos p) 1) in
             change (Z.sub (Zpos p) 1) with v
         end.

Lemma leapDay_cases (y : Z) :
  DaysInYear y = 365 /\ leapDay y = 0 \/ DaysInYear y = 366 /\ leapDay y = 1.
Proof.
  unfold leapDay, DaysInYear.
  repeat match goal with
         | |- context [Z.eqb ?a ?b] => destruct (Z.eqb_spec a b); cbn
         end; lia.
Qed.

(** The day of the year of a calendar day, and where it lies among the
    months. *)
Lemma monthStart_window (y m d : Z) :
  validYMD y m d = true ->
  let k := monthStart (leapDay y) (m - 1) + d - 1 in
  0 <= k < DaysInYear y
  /\ monthStart (leapDay y) (m - 1) <= k
  /\ (m = 12 \/ k < monthStart (leapDay y) m).
Proof.
  unfold validYMD, DaysInMonth. rewrite !andb_true_iff, !Z.leb_le.
  intros [[[Hm1 Hm12] Hd1] Hdm].
  assert (m = 1 \/ m = 2 \/ m = 3 \/ m = 4 \/ m = 5 \/ m = 6 \/ m = 7
          \/ m = 8 \/ m = 9 \/ m = 10 \/ m = 11 \/ m = 12) as Hm by lia.
  destruct (leapDay_cases y) as [[Hdy Hl] | [Hdy Hl]];
    rewrite Hdy, Hl; rewrite Hl in Hdm;
    repeat (destruct Hm as [Hm | Hm]); subst m; eval_pred;
    cbn in Hdm |- *; lia.
Qed.

Lemma MonthFromTime_window (leap k mn : Z) :
  0 <= leap <= 1 -> 0 <= mn <= 11 ->
  monthStart leap mn <= k ->
  (mn = 11 \/ k < monthStart leap (mn + 1)) ->
  (if k <? 31 then 0
   else if k <? 59 + leap then 1
   else if k <? 90 + leap then 2
   else if k <? 120 + leap then 3
   else if k <? 151 + leap then 4
   else if k <? 181 + leap then 5
   else if k <? 212 + leap then 6
   else if k <? 243 + leap then 7
   else if k <? 273 + leap then 8
   else if k <? 304 + leap then 9
   else if k <? 334 + leap then 10
   else 11) = mn.
Proof.
  intros Hleap Hmn Hlo Hhi.
  assert (mn = 0 \/ mn = 1 \/ mn = 2 \/ mn = 3 \/ mn = 4 \/ mn = 5 \/ mn = 6
          \/ mn = 7 \/ mn = 8 \/ mn = 9 \/ mn = 10 \/ mn = 11) as Hm by lia.
  repeat (destruct Hm as [Hm | Hm]); subst mn;
    repeat match type of Hhi with
           | context [Z.add 0 1] => change (Z.add 0 1) with 1 in Hhi
           | context [Z.add (Zpos ?p) 1] =>
               let v := eval vm_compute in (Z.add (Zpos p) 1) in
               change (Z.add (Zpos p) 1) with v in Hhi
           end;
    cbn in Hlo, Hhi;
    repeat match goal with
           | |- context [Z.ltb ?a ?b] => destruct (Z.ltb_spec a b); try lia
           end; reflexivity.
Qed.

(** The fields of UTC midnight of a calendar day are that day. *)
Lemma utcMidnight_fields (y m d : Z) :
  validYMD y m d = true ->
  Day (utcMidnight y m d)
  = DayFromYear y + monthStart (leapDay y) (m - 1) + d - 1
  /\ YearFromTime (utcMidnight y m d) = y
  /\ MonthFromTime (utcMidnight y m d) = m - 1
  /\ DateFromTime (utcMidnight y m d) = d.
Proof.
  intros Hvalid.
  pose proof (monthStart_window y m d Hvalid) as (Hk & Hlo & Hhi).
  unfold validYMD in Hvalid. rewrite !andb_true_iff, !Z.leb_le in Hvalid.
  destruct Hvalid as [[[Hm1 Hm12] Hd1] Hdm].
  assert (Day (utcMidnight y m d)
          = DayFromYear y + monthStart (leapDay y) (m - 1) + d - 1) as Hday.
  { unfold utcMidnight, Day, leapDay. rewrite Z.mul_comm.
    apply Z.div_mul. discriminate. }
  assert (YearFromTime (utcMidnight y m d) = y) as Hy.
  { apply YearFromTime_unique. rewrite Hday, DayFromYear_succ. lia. }
  assert (MonthFromTime (utcMidnight y m d) = m - 1) as Hmonth.
  { unfold MonthFromTime, DayWithinYear, InLeapYear. rewrite Hy, Hday.
    fold (leapDay y).
    apply MonthFromTime_window.
    - destruct (leapDay_cases y) as [[_ ->] | [_ ->]]; lia.
    - lia.
    - lia.
    - replace (m - 1 + 1) with m by lia. destruct Hhi; [left |right]; lia. }
  repeat split; try assumption.
  unfold DateFromTime. rewrite Hmonth. unfold DayWithinYear, InLeapYear.
  rewrite Hy, Hday. fold (leapDay y). lia.
Qed.

(** ** Decimal strings *)

Lemma decimal_char (c : ascii) :
  is_Some (digitIn 10 c) ->
  isWhiteSpace c = false /\ Ascii.eqb c "-" = false /\ c <> "+"%char
  /\ c <> "x"%char /\ c <> "X"%char.
Proof.
  destruct c as [[] [] [] [] [] [] [] []]; intros [d Hd];
    try discriminate Hd; repeat split; discriminate.
Qed.

Lemma decimal_cons (c : ascii) (r : string) :
  decimal (String c r) = true <-> is_Some (digitIn 10 c) /\ decimal r = true.
Proof.
  cbn [decimal]. rewrite andb_true_iff, bool_decide_eq_true. reflexivity.
Qed.

Lemma decimal_app (s1 s2 : string) :
  decimal s1 = true -> decimal s2 = true -> decimal (s1 ++ s2) = true.
Proof.
  intros H1 H2. induction s1 as [| c s1 IH]; [exact H2 |].
  apply decimal_cons in H1 as [Hc H1].
  change (decimal (String c (s1 ++ s2)) = true).
  apply decimal_cons. auto.
Qed.

Lemma showDigits_decimal (fuel : nat) :
  forall n acc, 0 <= n -> decimal acc = true ->
                decimal (showDigits fuel n acc) = true.
Proof.
  assert (forall n acc, 0 <= n -> decimal acc = true ->
            decimal (String (charOfCode (48 + n mod 10)) acc) = true) as Hd.
  { intros n acc Hn Hacc. apply decimal_cons. split; [| exact Hacc].
    rewrite digitIn_charOfCode by (apply Z.mod_pos_bound; lia). eauto. }
  induction fuel as [| f IH]; intros n acc Hn Hacc; cbn [showDigits].
  - apply Hd; assumption.
  - destruct (n <? 10); [apply Hd; assumption |].
    apply IH; [apply Z.div_pos; lia | apply Hd; assumption].
Qed.

Lemma zeros_decimal (k : nat) : decimal (zeros k) = true.
Proof. induction k as [| k IH]; [reflexivity | exact IH]. Qed.

Lemma zeroPad_decimal (n : Z) (k : nat) : 0 <= n -> decimal (zeroPad n k) = true.
Proof.
  intros Hn. apply decimal_app; [apply zeros_decimal |].
  apply showDigits_decimal; [exact Hn | reflexivity].
Qed.

Lemma zeroPad_nonempty (n : Z) (k : nat) : 0 <= n -> zeroPad n k <> "".
Proof.
  intros Hn. unfold zeroPad, showNat.
  destruct (showDigits_head (Z.to_nat (Z.log2 n)) n "" Hn) as (d & r & _ & ->).
  destruct (zeros _); discriminate.
Qed.

(** [split] stops at the first separator after a run of digits. *)
Lemma split_decimal (s rest : string) :
  decimal s = true ->
  split "-" (s ++ String "-" rest) = s :: split "-" rest
  /\ split "-" s = [s].
Proof.
  intros Hs. induction s as [| c s IH]; [split; reflexivity |].
  apply decimal_cons in Hs as [Hc Hs].
  destruct (decimal_char c Hc) as (_ & Hsep & _).
  destruct (IH Hs) as [IH1 IH2].
  change (String c s ++ String "-" rest) with (String c (s ++ String "-" rest)).
  cbn [split]. rewrite Hsep, IH1, IH2. split; reflexivity.
Qed.

Lemma zeros_parse (k : nat) (rest : string) (seen : bool) :
  digitsPrefix 10 (zeros k ++ rest) 0 seen
  = digitsPrefix 10 rest 0 (seen || negb (Nat.eqb k 0)).
Proof.
  revert seen. induction k as [| k IH]; intros seen.
  - cbn. now rewrite orb_false_r.
  - change (zeros (S k) ++ rest) with (String "0" (zeros k ++ rest)).
    cbn [digitsPrefix]. change (digitIn 10 "0") with (Some 0).
    cbv iota. change (0 * 10 + 0) with 0. rewrite IH. cbn.
    now rewrite orb_true_r.
Qed.

(** [parseInt] without a radix reads a zero-padded number back. *)
Lemma parseInt_zeroPad (n : Z) (k : nat) :
  0 <= n -> parseInt (VStr (zeroPad n k)) None = Some n.
Proof.
  intros Hn.
  pose proof (zeroPad_decimal n k Hn) as Hdec.
  pose proof (zeroPad_nonempty n k Hn) as Hne.
  assert (digitsPrefix 10 (zeroPad n k) 0 false = Some n) as Hparse.
  { unfold zeroPad. rewrite zeros_parse.
    rewrite <- (append_nil_r (showNat n)). now rewrite showNat_parse. }
  unfold parseInt. cbn [ToString].
  destruct (zeroPad n k) as [| c r]; [congruence |].
  apply decimal_cons in Hdec as [Hc Hr].
  destruct (decimal_char c Hc) as (Hws & Hminus & Hplus & _).
  cbn [trimStart]. rewrite Hws.
  assert (stripSign (String c r) = (1, String c r)) as ->.
  { unfold stripSign.
    destruct (ascii_dec c "-") as [-> | ?]; [discriminate Hminus |].
    destruct (ascii_dec c "+") as [-> | ?]; [congruence |].
    destruct c as [[] [] [] [] [] [] [] []]; congruence. }
  assert (stripHexPrefix (String c r) = None) as ->.
  { destruct r as [| c2 r2]; [destruct c as [[] [] [] [] [] [] [] []]; reflexivity |].
    apply decimal_cons in Hr as [Hc2 _].
    destruct (decimal_char c2 Hc2) as (_ & _ & _ & Hx & HX).
    unfold stripHexPrefix.
    destruct (ascii_dec c2 "x") as [-> | ?]; [congruence |].
    destruct (ascii_dec c2 "X") as [-> | ?]; [congruence |].
    destruct c as [[] [] [] [] [] [] [] []]; try reflexivity;
      destruct c2 as [[] [] [] [] [] [] [] []]; congruence. }
  cbv beta iota zeta delta [negb andb orb Z.eqb Z.ltb Z.compare].
  rewrite Hparse. f_equal. lia.
Qed.

Lemma split_isoDate (y m d : Z) :
  0 <= y -> 0 <= m -> 0 <= d ->
  split "-" (isoDate y m d) = [zeroPad y 4; zeroPad m 2; zeroPad d 2].
Proof.
  intros Hy Hm Hd.
  change (isoDate y m d)
    with (zeroPad y 4 ++ String "-" (zeroPad m 2 ++ String "-" (zeroPad d 2))).
  destruct (split_decimal (zeroPad y 4)
              (zeroPad m 2 ++ String "-" (zeroPad d 2))
              (zeroPad_decimal y 4 Hy)) as [-> _].
  destruct (split_decimal (zeroPad m 2) (zeroPad d 2)
              (zeroPad_decimal m 2 Hm)) as [-> _].
  destruct (split_decimal (zeroPad d 2) "" (zeroPad_decimal d 2 Hd))
    as [_ ->].
  reflexivity.
Qed.

Lemma TimeClip_in_range (t : Z) :
  Z.abs t <= 8640000000000000 -> TimeClip (Some t) = Some t.
Proof.
  intros H. unfold TimeClip.
  destruct (Z.ltb_spec 8640000000000000 (Z.abs t)); [lia | reflexivity].
Qed.

(** [Date.UTC] of the fields of a calendar day, outside the two-digit
    years, is UTC midnight of that day. *)
Lemma Date_UTC_utcMidnight (y m d : Z) :
  100 <= y <= 9999 -> validYMD y m d = true ->
  newDate (Date_UTC (Some y) (Some (m - 1)) (Some d))
  = Some (utcMidnight y m d)
  /\ Z.abs (utcMidnight y m d) <= 8640000000000000 - 86400000.
Proof.
  intros Hy Hvalid.
  pose proof (monthStart_window y m d Hvalid) as (Hk & _).
  unfold validYMD in Hvalid. rewrite !andb_true_iff, !Z.leb_le in Hvalid.
  destruct Hvalid as [[[Hm1 Hm12] Hd1] Hdm].
  assert (Z.abs (utcMidnight y m d) <= 8640000000000000 - 86400000) as Hclip.
  { unfold utcMidnight, msPerDay. fold (leapDay y).
    pose proof (DayFromYear_bounds y). pose proof (leapDay_cases y). lia. }
  split; [| exact Hclip].
  unfold Date_UTC, MakeFullYear, MakeDay, MakeDate.
  destruct (Z.leb_spec 0 y); [| lia].
  destruct (Z.leb_spec y 99); [lia |]. cbn [andb num_mul num_add].
  rewrite Z.div_small, Z.mod_small by lia.
  rewrite !Z.add_0_r.
  replace ((DayFromYear y + monthStart (leapDay y) (m - 1) + d - 1)
           * msPerDay)
    with (utcMidnight y m d) by (unfold utcMidnight, msPerDay; lia).
  unfold newDate. rewrite !TimeClip_in_range by lia. reflexivity.
Qed.

(** ** The date normaliser *)

Section CheckDateProperties.

Context {locale : Locale}.

(** When the zone's offset is the same at [t] and at [t] shifted back by
    it, adding [getTimezoneOffset] cancels the conversion to local time
    that [toDateString] makes: the string is that of [t] read as UTC. *)
Lemma toDateString_compensated (t : Z) :
  let shifted := t - tzMinutes t * 60000 in
  tzMinutes shifted = tzMinutes t ->
  Z.abs shifted <= 8640000000000000 ->
  toDateString
    (newDate (num_add (getTime (Some t))
                (num_mul (getTimezoneOffset (Some t)) (Some 60000))))
  = DateString t.
Proof.
  intros shifted Htz Hclip. unfold getTime, getTimezoneOffset, LocalTime.
  cbn [num_mul num_add]. unfold LocalTZA, msPerMinute.
  replace (t - (t + tzMinutes t * 60000)) with (- tzMinutes t * 60000) by lia.
  rewrite Z.div_mul by lia.
  replace (t + - tzMinutes t * 60000) with shifted by (unfold shifted; lia).
  unfold newDate, TimeClip.
  destruct (Z.ltb_spec 8640000000000000 (Z.abs shifted)) as [? | _]; [lia |].
  cbn [toDateString]. unfold LocalTime, LocalTZA, msPerMinute.
  rewrite Htz. f_equal. unfold shifted. lia.
Qed.

(** In particular "2023-01-01" is rendered as that Sunday. *)
Lemma checkDate_2023_01_01 (now : Z) :
  tzMinutes (1672531200000 - tzMinutes 1672531200000 * 60000)
  = tzMinutes 1672531200000 ->
  Z.abs (tzMinutes 1672531200000) <= 1440 ->
  checkDate now (VStr "2023-01-01") = Some "Sun Jan 01 2023".
Proof.
  intros Htz Hday. unfold checkDate.
  change (negb (truthy (VStr "2023-01-01"))) with false. cbv iota.
  change (newDate (Date_UTC
            (parseInt (index (split "-" "2023-01-01") 0) None)
            (num_sub (parseInt (index (split "-" "2023-01-01") 1) None)
               (Some 1))
            (parseInt (index (split "-" "2023-01-01") 2) None)))
    with (Some 1672531200000).
  rewrite toDateString_compensated by (cbv zeta; lia || assumption).
  reflexivity.
Qed.

(** For a day of the calendar from the year 100 on, written [yyyy-mm-dd],
    in a zone whose offset is the same at UTC midnight of that day and at
    the instant shifted back by it, [checkDate] renders that very day. *)
Lemma checkDate_same_day (now y m d : Z) :
  100 <= y <= 9999 -> validYMD y m d = true ->
  let t := utcMidnight y m d in
  tzMinutes (t - tzMinutes t * 60000) = tzMinutes t ->
  Z.abs (tzMinutes t) <= 1440 ->
  checkDate now (VStr (isoDate y m d))
  = Some (weekdayName (WeekDay t) ++ " " ++ monthName (m - 1) ++ " "
          ++ zeroPad d 2 ++ " " ++ zeroPad y 4).
Proof.
  intros Hy Hvalid t Htz Hoff. subst t.
  destruct (Date_UTC_utcMidnight y m d Hy Hvalid) as [Hutc Hclip].
  destruct (utcMidnight_fields y m d Hvalid) as (_ & Hyear & Hmonth & Hdate).
  pose proof Hvalid as Hv. unfold validYMD in Hv.
  rewrite !andb_true_iff, !Z.leb_le in Hv. destruct Hv as [[[Hm1 _] Hd1] _].
  unfold checkDate.
  assert (truthy (VStr (isoDate y m d)) = true) as ->.
  { cbn. unfold isoDate, zeroPad at 1, showNat.
    destruct (showDigits_head (Z.to_nat (Z.log2 y)) y "" ltac:(lia))
      as (c & r & _ & ->).
    destruct (zeros _); reflexivity. }
  cbn [negb]. rewrite split_isoDate by lia. cbn [index lookup list_lookup].
  rewrite !parseInt_zeroPad by lia. cbn [num_sub]. rewrite Hutc.
  rewrite toDateString_compensated by (cbv zeta; lia).
  unfold DateString. rewrite Hyear, Hmonth, Hdate.
  destruct (Z.leb_spec 0 y); [| lia]. rewrite Z.abs_eq by lia. reflexivity.
Qed.

End CheckDateProperties.

(** ** Concrete runs *)

Section Runs.

#[local] Existing Instance sampleMongoose.

(** The end-to-end example: create Alice, add a run of 30 minutes on
    2023-05-01, fetch the log. *)
Example alice_runs :
  let z := fixedZone 0 in
  (handle (at_ alice) emptyDb (PostUsers (VStr "Alice"))).1
  = res_json (BUser "Alice" alice)
  /\ (handle (at_ run1) (withAlice z)
        (PostExercises alice (VStr "run") (VNum 30) (VStr "2023-05-01"))).1
     = res_json (BExercise alice "Alice" "run" 30 "Mon May 01 2023")
  /\ (handle (at_ run1) (withRun z) (GetLogs alice None None None)).1
     = res_json
         (BLog alice "Alice" 1
            [{| description := "run"; duration := 30;
                date := "Mon May 01 2023" |}]).
Proof. cbv zeta. repeat split; reflexivity. Qed.

(** C2, as stated, fails: an entry of 2023-01-31, 10:00 UTC, lies on the
    last day of the range 2023-01-01 to 2023-01-31, and the filter drops
    it. *)
Lemma filterLog_drops_last_day :
  ~ (forall (locale : Locale) (logs : list Exercise) (from to : string)
            (f t : Z),
        from <> "" -> to <> "" ->
        Date_parse from = Some f -> Date_parse to = Some t ->
        filterLog logs (Some from) (Some to) None = keptByDay f t logs).
Proof.
  intros H.
  specialize (H (fixedZone 0) [lateRun] "2023-01-01" "2023-01-31"
                1672531200000 1675123200000).
  specialize (H ltac:(discriminate) ltac:(discriminate) eq_refl eq_refl).
  change (@nil Exercise = [lateRun]) in H. discriminate H.
Qed.

(** The range 2023-01-01 to 2023-01-31 loses the run of the 31st at 10:00;
    the range to 2023-02-01 keeps it. *)
Lemma filterLog_range_witness :
  filterLog (locale := fixedZone 0) [lateRun]
    (Some "2023-01-01") (Some "2023-01-31") None = []
  /\ filterLog (locale := fixedZone 0) [lateRun]
       (Some "2023-01-01") (Some "2023-02-01") None = [lateRun].
Proof.
  split.
  - destruct (filterLog_range (locale := fixedZone 0) [lateRun]
                "2023-01-01" "2023-01-31" 1672531200000 1675123200000)
      as [-> _]; [discriminate | discriminate | reflexivity | reflexivity |].
    reflexivity.
  - destruct (filterLog_range (locale := fixedZone 0) [lateRun]
                "2023-01-01" "2023-02-01" 1672531200000 1675209600000)
      as [-> _]; [discriminate | discriminate | reflexivity | reflexivity |].
    reflexivity.
Defined.

(** A lone [from] after the entry does not remove it. *)
Lemma filterLog_lone_bound_witness :
  filterLog (locale := fixedZone 0) [lateRun] (Some "2023-02-01") None None
  = filterLog (locale := fixedZone 0) [lateRun] None None None.
Proof.
  apply (filterLog_lone_bound (locale := fixedZone 0)). reflexivity.
Defined.

(** A limit of 2 on three entries. *)
Lemma filterLog_limit_prefix_witness :
  filterLog (locale := fixedZone 0) [lateRun; lateRun; lateRun] None None
    (Some "2")
  = [lateRun; lateRun].
Proof.
  destruct (filterLog_limit_prefix (locale := fixedZone 0)
              [lateRun; lateRun; lateRun] None None "2" 2)
    as [-> _]; [reflexivity | lia | reflexivity].
Defined.


(** Alice's log after her run. *)
Lemma log_entries_owned_witness :
  Users (withRun (fixedZone 0)) !! alice = Some aliceDoc
  /\ Forall (fun ex => e_userId ex = u_id aliceDoc) (u_log aliceDoc).
Proof.
  assert (Users (withRun (fixedZone 0)) !! alice = Some aliceDoc) as Hu
    by reflexivity.
  split; [exact Hu |].
  exact (proj1 (log_entries_owned (locale := fixedZone 0))
           [(at_ alice, PostUsers (VStr "Alice"));
            (at_ run1,
             PostExercises alice (VStr "run") (VNum 30) (VStr "2023-05-01"))]
           alice aliceDoc Hu).
Defined.

(** Alice's log, which holds a run, with the limit "abc". *)
Lemma getLogs_limit_not_a_number_witness :
  (getLogs (locale := fixedZone 0) (at_ run1) (withRun (fixedZone 0)) alice
     None None (Some "abc")).1
  = res_json (BLog alice "Alice" 0 []).
Proof.
  apply (getLogs_limit_not_a_number (locale := fixedZone 0) (at_ run1)
           (withRun (fixedZone 0)) alice None None "abc" aliceDoc).
  - reflexivity.
  - reflexivity.
  - reflexivity.
  - discriminate.
  - reflexivity.
Defined.

(** West of Greenwich the stored instant of a day is later than the UTC
    midnight a [yyyy-mm-dd] bound stands for: at UTC-5 the run of
    2023-05-01 is not in the log up to 2023-05-01. *)
Example range_misses_last_day :
  let z := fixedZone (-300) in
  (handle (at_ run1) (withRun z)
     (GetLogs alice (Some "2023-04-01") (Some "2023-05-01") None)).1
  = res_json (BLog alice "Alice" 0 []).
Proof. reflexivity. Qed.

(** C3: the code at the input on which it departs from the claim.  The
    Number 0 is a valid duration, and an Add Exercise request for an
    existing user with a description and the duration 0 is answered
    "Missing fields." and stores nothing; the same request with the string
    "0" succeeds. *)
Theorem postExercises_rejects_zero :
  let z := fixedZone 0 in
  isValidDuration (VNum 0) = true
  /\ handle (at_ run1) (withAlice z)
       (PostExercises alice (VStr "run") (VNum 0) (VStr "2023-05-01"))
     = (res_json (BString "Missing fields."), withAlice z)
  /\ (handle (at_ run1) (withAlice z)
        (PostExercises alice (VStr "run") (VStr "0") (VStr "2023-05-01"))).1
     = res_json (BExercise alice "Alice" "run" 0 "Mon May 01 2023").
Proof. cbv zeta. repeat split; reflexivity. Qed.

(** C4: the code at the inputs on which it departs from the claim.  Where
    daylight saving time begins between the shifted instant and UTC
    midnight, the day before is rendered; and a year below 100 is rendered
    1900 years later, in every zone. *)
Theorem checkDate_renders_another_day :
  checkDate (locale := sydney2023) 0 (VStr "2023-10-01")
  = Some "Sat Sep 30 2023"
  /\ checkDate (locale := fixedZone 600) 0 (VStr "2023-10-01")
     = Some "Sun Oct 01 2023"
  /\ checkDate (locale := fixedZone 0) 0 (VStr "0050-01-01")
     = Some "Sun Jan 01 1950".
Proof. repeat split; reflexivity. Qed.

(** C5: the code at the input on which it departs from the claim.  No user
    has the id "xyz"; the log request for it is answered from the [catch]
    of the handler, not with "User not found.", which is the answer for a
    well-formed id that no user has; Add Exercise rejects the same id
    before it reaches the store. *)
Theorem getLogs_malformed_id_answer :
  let z := fixedZone 0 in
  Users (withRun z) !! "xyz" = None
  /\ (handle (at_ run1) (withRun z) (GetLogs "xyz" None None None)).1
     = res_json (BString "Could not get user las log data.")
  /\ (handle (at_ run1) (withRun z) (GetLogs nobody None None None)).1
     = res_json (BString "User not found.")
  /\ (handle (at_ run1) (withRun z)
        (PostExercises "xyz" (VStr "run") (VNum 30) VUndefined)).1
     = res_json (BString "Invalid user ID.").
Proof. cbv zeta. repeat split; reflexivity. Qed.

End Runs.

(** * Further properties *)

(** ** Decimal strings of a fixed width *)

Lemma showDigits_app (fuel : nat) :
  forall n acc rest,
    showDigits fuel n acc ++ rest = showDigits fuel n (acc ++ rest).
Proof.
  induction fuel as [| f IH]; intros n acc rest; cbn [showDigits].
  - reflexivity.
  - destruct (n <? 10); [reflexivity | apply IH].
Qed.

(** Fuel beyond what the number needs changes nothing. *)
Lemma showDigits_fuel (f1 : nat) :
  forall f2 n acc,
    0 <= n < 2 ^ (Z.of_nat f1 + 1) -> n < 2 ^ (Z.of_nat f2 + 1) ->
    showDigits f1 n acc = showDigits f2 n acc.
Proof.
  induction f1 as [| f1 IH]; intros f2 n acc H1 H2.
  - change (2 ^ (Z.of_nat 0 + 1)) with 2 in H1.
    destruct f2 as [| f2]; cbn [showDigits]; [reflexivity |].
    destruct (Z.ltb_spec n 10); [reflexivity | lia].
  - cbn [showDigits]. destruct (Z.ltb_spec n 10) as [Hlt | Hge].
    + destruct f2 as [| f2]; cbn [showDigits]; [reflexivity |].
      destruct (Z.ltb_spec n 10); [reflexivity | lia].
    + destruct f2 as [| f2].
      * change (2 ^ (Z.of_nat 0 + 1)) with 2 in H2. lia.
      * cbn [showDigits]. destruct (Z.ltb_spec n 10); [lia |].
        replace (Z.of_nat (S f1) + 1) with (Z.succ (Z.of_nat f1 + 1)) in H1
          by lia.
        replace (Z.of_nat (S f2) + 1) with (Z.succ (Z.of_nat f2 + 1)) in H2
          by lia.
        rewrite Z.pow_succ_r in H1, H2 by lia.
        apply IH.
        -- split; [apply Z.div_pos; lia | apply Z.div_lt_upper_bound; lia].
        -- apply Z.div_lt_upper_bound; lia.
Qed.

Lemma showNat_small (n : Z) :
  0 <= n < 10 -> showNat n = String (charOfCode (48 + n)) "".
Proof.
  intros Hn. unfold showNat.
  destruct (Z.to_nat (Z.log2 n)); cbn [showDigits];
    rewrite Z.mod_small by lia; [reflexivity |].
  destruct (Z.ltb_spec n 10); [reflexivity | lia].
Qed.

Lemma showNat_unfold (n : Z) :
  10 <= n ->
  showNat n = showNat (n / 10) ++ String (charOfCode (48 + n mod 10)) "".
Proof.
  intros Hn. unfold showNat. rewrite showDigits_app. cbn [append].
  pose proof (showNat_range n ltac:(lia)) as Hr.
  destruct (Z.to_nat (Z.log2 n)) as [| f] eqn:Hf.
  - change (2 ^ (Z.of_nat 0 + 1)) with 2 in Hr. lia.
  - cbn [showDigits]. destruct (Z.ltb_spec n 10); [lia |].
    replace (Z.of_nat (S f) + 1) with (Z.succ (Z.of_nat f + 1)) in Hr by lia.
    rewrite Z.pow_succ_r in Hr by lia.
    apply showDigits_fuel.
    + split; [apply Z.div_pos; lia | apply Z.div_lt_upper_bound; lia].
    + apply showNat_range, Z.div_pos; lia.
Qed.

Lemma length_append (s1 s2 : string) :
  String.length (s1 ++ s2) = (String.length s1 + String.length s2)%nat.
Proof.
  induction s1 as [| c s1 IH]; [reflexivity |].
  change (S (String.length (s1 ++ s2))
          = S (String.length s1 + String.length s2)). now rewrite IH.
Qed.

Lemma length_zeros (k : nat) : String.length (zeros k) = k.
Proof. induction k as [| k IH]; [reflexivity | cbn; now rewrite IH]. Qed.

Lemma length_showNat (n : Z) :
  0 <= n ->
  (n < 10 -> String.length (showNat n) = 1%nat)
  /\ (10 <= n < 100 -> String.length (showNat n) = 2%nat)
  /\ (100 <= n < 1000 -> String.length (showNat n) = 3%nat)
  /\ (1000 <= n < 10000 -> String.length (showNat n) = 4%nat).
Proof.
  intros Hn.
  assert (forall m, 0 <= m < 10 -> String.length (showNat m) = 1%nat) as H1.
  { intros m Hm. now rewrite showNat_small. }
  assert (forall m k, 10 <= m -> String.length (showNat (m / 10)) = k ->
            String.length (showNat m) = S k) as Hstep.
  { intros m k Hm Hk. rewrite showNat_unfold, length_append, Hk by lia.
    cbn. lia. }
  assert (forall m, 10 <= m < 100 -> String.length (showNat m) = 2%nat) as H2.
  { intros m Hm. apply Hstep; [lia |]. apply H1.
    split; [apply Z.div_pos; lia | apply Z.div_lt_upper_bound; lia]. }
  assert (forall m, 100 <= m < 1000 -> String.length (showNat m) = 3%nat)
    as H3.
  { intros m Hm. apply Hstep; [lia |]. apply H2.
    split; [apply Z.div_le_lower_bound; lia
           | apply Z.div_lt_upper_bound; lia]. }
  repeat split; auto.
  intros Hm. apply Hstep; [lia |]. apply H3.
  split; [apply Z.div_le_lower_bound; lia | apply Z.div_lt_upper_bound; lia].
Qed.

Lemma length_zeroPad (n : Z) :
  0 <= n ->
  (n < 100 -> String.length (zeroPad n 2) = 2%nat)
  /\ (n < 10000 -> String.length (zeroPad n 4) = 4%nat).
Proof.
  intros Hn. destruct (length_showNat n Hn) as (H1 & H2 & H3 & H4).
  unfold zeroPad. split; intros Hlt; rewrite length_append, length_zeros.
  - destruct (Z.lt_ge_cases n 10); [rewrite H1 | rewrite H2]; lia.
  - destruct (Z.lt_ge_cases n 10); [rewrite H1 by lia; lia |].
    destruct (Z.lt_ge_cases n 100); [rewrite H2 by lia; lia |].
    destruct (Z.lt_ge_cases n 1000); [rewrite H3 | rewrite H4]; lia.
Qed.

Lemma zeroPad_value (n : Z) (k : nat) :
  0 <= n -> digitsPrefix 10 (zeroPad n k) 0 false = Some n.
Proof.
  intros Hn. unfold zeroPad. rewrite zeros_parse.
  rewrite <- (append_nil_r (showNat n)). now rewrite showNat_parse.
Qed.

Lemma isDigit_digitIn (c : ascii) :
  isDigit c = true <-> is_Some (digitIn 10 c).
Proof.
  destruct c as [[] [] [] [] [] [] [] []]; cbn; split;
    try discriminate; try (intros [? [=]]; fail); eauto.
Qed.

(** A two-digit and a four-digit string, taken apart. *)
Lemma zeroPad2_chars (n : Z) :
  0 <= n < 100 ->
  exists c1 c2 a1 a2,
    zeroPad n 2 = String c1 (String c2 "")
    /\ digitIn 10 c1 = Some a1 /\ digitIn 10 c2 = Some a2
    /\ n = 10 * a1 + a2.
Proof.
  intros Hn.
  pose proof (zeroPad_decimal n 2 ltac:(lia)) as Hdec.
  pose proof (proj1 (length_zeroPad n ltac:(lia)) ltac:(lia)) as Hlen.
  pose proof (zeroPad_value n 2 ltac:(lia)) as Hval.
  destruct (zeroPad n 2) as [| c1 [| c2 [| ? ?]]]; try discriminate Hlen.
  apply decimal_cons in Hdec as [[a1 H1] Hdec].
  apply decimal_cons in Hdec as [[a2 H2] _].
  exists c1, c2, a1, a2. repeat split; try assumption.
  cbn [digitsPrefix] in Hval. rewrite H1, H2 in Hval.
  injection Hval as Hval. lia.
Qed.

Lemma zeroPad4_chars (n : Z) :
  0 <= n < 10000 ->
  exists c1 c2 c3 c4 a1 a2 a3 a4,
    zeroPad n 4 = String c1 (String c2 (String c3 (String c4 "")))
    /\ digitIn 10 c1 = Some a1 /\ digitIn 10 c2 = Some a2
    /\ digitIn 10 c3 = Some a3 /\ digitIn 10 c4 = Some a4
    /\ n = 1000 * a1 + 100 * a2 + 10 * a3 + a4.
Proof.
  intros Hn.
  pose proof (zeroPad_decimal n 4 ltac:(lia)) as Hdec.
  pose proof (proj2 (length_zeroPad n ltac:(lia)) ltac:(lia)) as Hlen.
  pose proof (zeroPad_value n 4 ltac:(lia)) as Hval.
  destruct (zeroPad n 4) as [| c1 [| c2 [| c3 [| c4 [| ? ?]]]]];
    try discriminate Hlen.
  apply decimal_cons in Hdec as [[a1 H1] Hdec].
  apply decimal_cons in Hdec as [[a2 H2] Hdec].
  apply decimal_cons in Hdec as [[a3 H3] Hdec].
  apply decimal_cons in Hdec as [[a4 H4] _].
  exists c1, c2, c3, c4, a1, a2, a3, a4. repeat split; try assumption.
  cbn [digitsPrefix] in Hval. rewrite H1, H2, H3, H4 in Hval.
  injection Hval as Hval. lia.
Qed.

(** The fields of a day written [yyyy-mm-dd] are read back. *)
Lemma isoFields_isoDate (y m d : Z) :
  0 <= y < 10000 -> 0 <= m < 100 -> 0 <= d < 100 ->
  isoFields (isoDate y m d) = Some (y, m, d)
  /\ isDateFormatValid (VStr (isoDate y m d)) = true.
Proof.
  intros Hy Hm Hd. unfold isDateFormatValid. cbn [ToString].
  change (isoDate y m d)
    with (zeroPad y 4 ++ String "-" (zeroPad m 2 ++ String "-" (zeroPad d 2))).
  destruct (zeroPad4_chars y Hy)
    as (y1 & y2 & y3 & y4 & a1 & a2 & a3 & a4 & -> & Ha1 & Ha2 & Ha3 & Ha4
        & Hyv).
  destruct (zeroPad2_chars m Hm) as (m1 & m2 & b1 & b2 & -> & Hb1 & Hb2 & Hmv).
  destruct (zeroPad2_chars d Hd) as (d1 & d2 & e1 & e2 & -> & He1 & He2 & Hdv).
  change (String y1 (String y2 (String y3 (String y4 "")))
          ++ String "-" (String m1 (String m2 "")
                         ++ String "-" (String d1 (String d2 ""))))
    with (String y1 (String y2 (String y3 (String y4 (String "-"
           (String m1 (String m2 (String "-"
             (String d1 (String d2 "")))))))))).
  unfold isoFields, decDigit.
  rewrite Ha1, Ha2, Ha3, Ha4, Hb1, Hb2, He1, He2. cbn [mbind option_bind].
  split; [congruence |].
  repeat match goal with
         | H : digitIn 10 ?c = Some _ |- _ =>
             let Hd := fresh in
             assert (isDigit c = true) as Hd
               by (apply isDigit_digitIn; rewrite H; eauto);
             rewrite Hd; clear H
         end.
  reflexivity.
Qed.

(** ** More on the date normaliser *)

Section MoreCheckDate.

Context {locale : Locale}.

Lemma utcMidnight_in_range (y m d : Z) :
  0 <= y <= 9999 -> validYMD y m d = true ->
  Z.abs (utcMidnight y m d) <= 8640000000000000 - 86400000.
Proof.
  intros Hy Hvalid.
  pose proof (monthStart_window y m d Hvalid) as (Hk & _).
  unfold utcMidnight, msPerDay.
  pose proof (DayFromYear_bounds y). pose proof (leapDay_cases y). lia.
Qed.

(** [new Date("yyyy-mm-dd")] is UTC midnight of that day, in every zone. *)
Lemma Date_parse_isoDate (y m d : Z) :
  0 <= y <= 9999 -> validYMD y m d = true ->
  Date_parse (isoDate y m d) = Some (utcMidnight y m d).
Proof.
  intros Hy Hvalid. pose proof Hvalid as Hv. unfold validYMD in Hv.
  rewrite !andb_true_iff, !Z.leb_le in Hv.
  destruct Hv as [[[Hm1 Hm12] Hd1] Hdm].
  assert (d < 100) by (unfold DaysInMonth in Hdm;
                       pose proof (leapDay_cases y);
                       repeat case_match; lia).
  unfold Date_parse.
  destruct (isoFields_isoDate y m d) as [-> _]; [lia | lia | lia |].
  rewrite Hvalid. apply TimeClip_in_range.
  pose proof (utcMidnight_in_range y m d Hy Hvalid). lia.
Qed.

(** [Date.UTC] of a year from 0 to 99 is a day of the 1900s. *)
Lemma Date_UTC_two_digit_year (y m d : Z) :
  0 <= y <= 99 -> validYMD (1900 + y) m d = true ->
  newDate (Date_UTC (Some y) (Some (m - 1)) (Some d))
  = Some (utcMidnight (1900 + y) m d).
Proof.
  intros Hy Hvalid.
  pose proof (utcMidnight_in_range (1900 + y) m d ltac:(lia) Hvalid) as Hclip.
  unfold validYMD in Hvalid. rewrite !andb_true_iff, !Z.leb_le in Hvalid.
  destruct Hvalid as [[[Hm1 Hm12] Hd1] Hdm].
  unfold Date_UTC, MakeFullYear, MakeDay, MakeDate.
  destruct (Z.leb_spec 0 y); [| lia].
  destruct (Z.leb_spec y 99); [| lia]. cbn [andb num_mul num_add].
  rewrite Z.div_small, Z.mod_small by lia. rewrite !Z.add_0_r.
  replace ((DayFromYear (1900 + y)
            + monthStart (leapDay (1900 + y)) (m - 1) + d - 1) * msPerDay)
    with (utcMidnight (1900 + y) m d) by (unfold utcMidnight, msPerDay; lia).
  unfold newDate. rewrite !TimeClip_in_range by lia. reflexivity.
Qed.

Lemma truthy_isoDate (y m d : Z) :
  0 <= y -> truthy (VStr (isoDate y m d)) = true.
Proof.
  intros Hy. cbn. unfold isoDate, zeroPad at 1, showNat.
  destruct (showDigits_head (Z.to_nat (Z.log2 y)) y "" Hy)
    as (c & r & _ & ->).
  destruct (zeros _); reflexivity.
Qed.

(** The input's day is rendered: for a day of the calendar from the year
    100 on, written [yyyy-mm-dd], in a zone whose offset is the same at UTC
    midnight of that day and at that instant shifted back by the offset,
    the result names the weekday, month, day and year of the input. *)
Theorem checkDate_renders_input_day (now y m d : Z) :
  100 <= y <= 9999 -> validYMD y m d = true ->
  tzMinutes (utcMidnight y m d - tzMinutes (utcMidnight y m d) * 60000)
  = tzMinutes (utcMidnight y m d) ->
  Z.abs (tzMinutes (utcMidnight y m d)) <= 1440 ->
  checkDate now (VStr (isoDate y m d))
  = Some (weekdayName (WeekDay (utcMidnight y m d)) ++ " "
          ++ monthName (m - 1) ++ " " ++ zeroPad d 2 ++ " " ++ zeroPad y 4)
  /\ YearFromTime (utcMidnight y m d) = y
  /\ MonthFromTime (utcMidnight y m d) = m - 1
  /\ DateFromTime (utcMidnight y m d) = d.
Proof.
  intros Hy Hvalid Htz Hoff.
  destruct (utcMidnight_fields y m d Hvalid) as (_ & Hyear & Hmonth & Hdate).
  split; [| auto].
  apply (checkDate_same_day now y m d Hy Hvalid Htz Hoff).
Qed.

(** The two-digit years: a day of a year from 0 to 99 is rendered as the
    same day of the month 1900 years later. *)
Theorem checkDate_two_digit_year (now y m d : Z) :
  0 <= y <= 99 -> validYMD (1900 + y) m d = true ->
  tzMinutes (utcMidnight (1900 + y) m d
             - tzMinutes (utcMidnight (1900 + y) m d) * 60000)
  = tzMinutes (utcMidnight (1900 + y) m d) ->
  Z.abs (tzMinutes (utcMidnight (1900 + y) m d)) <= 1440 ->
  checkDate now (VStr (isoDate y m d))
  = Some (weekdayName (WeekDay (utcMidnight (1900 + y) m d)) ++ " "
          ++ monthName (m - 1) ++ " " ++ zeroPad d 2 ++ " "
          ++ zeroPad (1900 + y) 4).
Proof.
  intros Hy Hvalid Htz Hoff.
  pose proof (Date_UTC_two_digit_year y m d Hy Hvalid) as Hutc.
  pose proof (utcMidnight_in_range (1900 + y) m d ltac:(lia) Hvalid) as Hclip.
  destruct (utcMidnight_fields (1900 + y) m d Hvalid)
    as (_ & Hyear & Hmonth & Hdate).
  pose proof Hvalid as Hv. unfold validYMD in Hv.
  rewrite !andb_true_iff, !Z.leb_le in Hv. destruct Hv as [[[Hm1 _] Hd1] _].
  unfold checkDate. rewrite truthy_isoDate by lia.
  cbn [negb]. rewrite split_isoDate by lia. cbn [index lookup list_lookup].
  rewrite !parseInt_zeroPad by lia. cbn [num_sub]. rewrite Hutc.
  rewrite toDateString_compensated by (cbv zeta; lia).
  unfold DateString. rewrite Hyear, Hmonth, Hdate.
  destruct (Z.leb_spec 0 (1900 + y)); [| lia].
  rewrite Z.abs_eq by lia. reflexivity.
Qed.

Lemma Date_UTC_NaN (year month day : option Z) :
  year = None \/ month = None \/ day = None ->
  Date_UTC year month day = None.
Proof.
  intros Hnan. unfold Date_UTC, MakeFullYear, MakeDay.
  destruct year as [y |]; [destruct ((0 <=? y) && (y <=? 99)) |];
    destruct month, day; try reflexivity;
    destruct Hnan as [? | [? | ?]]; discriminate.
Qed.

(** What is not three numbers is no date: when there are fewer than three
    fields between the dashes, or one of the first three does not start
    with an integer, the result is "Invalid Date". *)
Theorem checkDate_not_three_numbers (now : Z) (s : string) :
  s <> "" ->
  (length (split "-" s) < 3)%nat
  \/ parseInt (index (split "-" s) 0) None = None
  \/ parseInt (index (split "-" s) 1) None = None
  \/ parseInt (index (split "-" s) 2) None = None ->
  checkDate now (VStr s) = Some "Invalid Date".
Proof.
  intros Hne Hbad. unfold checkDate.
  assert (truthy (VStr s) = true) as ->.
  { cbn. destruct (String.eqb_spec s ""); [contradiction | reflexivity]. }
  cbn [negb].
  assert (parseInt (index (split "-" s) 0) None = None
          \/ parseInt (index (split "-" s) 1) None = None
          \/ parseInt (index (split "-" s) 2) None = None) as Hnan.
  { destruct Hbad as [Hlen | Hbad]; [| exact Hbad].
    right; right. unfold index.
    rewrite (proj2 (lookup_ge_None (split "-" s) 2)) by lia. reflexivity. }
  rewrite Date_UTC_NaN; [reflexivity |].
  destruct Hnan as [-> | [-> | ->]]; auto.
Qed.

End MoreCheckDate.

(** ** More on the duration validator *)

Lemma trimStart_allWhite (ws s : string) :
  allWhite ws = true -> trimStart (ws ++ s) = trimStart s.
Proof.
  induction ws as [| c ws IH]; intros Hws; [reflexivity |].
  cbn [allWhite] in Hws. apply andb_true_iff in Hws as [Hc Hws].
  change (String c ws ++ s) with (String c (ws ++ s)).
  cbn [trimStart]. rewrite Hc. apply IH, Hws.
Qed.

Lemma digitsPrefix_stops (rest : string) (n : Z) :
  noDigitAhead rest = true -> digitsPrefix 10 rest n true = Some n.
Proof.
  destruct rest as [| c r]; [reflexivity |]. cbn [noDigitAhead digitsPrefix].
  intros Hc. destruct (digitIn 10 c) as [d |] eqn:Hd; [| reflexivity].
  assert (isDigit c = true) as Hc'
    by (apply isDigit_digitIn; rewrite Hd; eauto).
  rewrite Hc' in Hc. discriminate.
Qed.

(** Only the leading integer counts: white space before it and whatever
    follows it (not a digit) are ignored, and so "12abc", " 30 " and "600.9"
    are valid durations; after a minus sign only 0 is. *)
Theorem isValidDuration_leading_integer (ws rest : string) (n : Z) :
  allWhite ws = true -> 0 <= n -> noDigitAhead rest = true ->
  isValidDuration (VStr (ws ++ showNat n ++ rest)) = (n <=? 600)
  /\ isValidDuration (VStr (ws ++ String "-" (showNat n ++ rest)))
     = (n =? 0).
Proof.
  intros Hws Hn Hrest.
  assert (parseInt (VStr (ws ++ showNat n ++ rest)) (Some 10) = Some n) as H1.
  { rewrite parseInt_radix10. cbn [ToString].
    rewrite trimStart_allWhite by assumption.
    destruct (showNat_plain n rest Hn) as [-> ->].
    rewrite showNat_parse, digitsPrefix_stops by assumption.
    cbn; first [reflexivity | f_equal; lia]. }
  assert (parseInt (VStr (ws ++ String "-" (showNat n ++ rest))) (Some 10)
          = Some (- n)) as H2.
  { rewrite parseInt_radix10. cbn [ToString].
    rewrite trimStart_allWhite by assumption.
    change (trimStart (String "-" (showNat n ++ rest)))
      with (String "-" (showNat n ++ rest)).
    cbn [stripSign]. rewrite showNat_parse, digitsPrefix_stops by assumption.
    cbn; first [reflexivity | f_equal; lia]. }
  unfold isValidDuration. rewrite H1, H2. cbn. split.
  - destruct (Z.leb_spec 0 n); [reflexivity | lia].
  - destruct (Z.leb_spec 0 (- n)), (Z.eqb_spec n 0),
             (Z.leb_spec (- n) 600); cbn; lia || reflexivity.
Qed.

(** ** More on the log filter *)

Lemma slice_sublist {A : Type} (arr : list A) (start end_ : option Z) :
  slice arr start end_ `sublist_of` arr.
Proof.
  unfold slice. etransitivity; [apply sublist_take | apply sublist_drop].
Qed.

Lemma slice_drop_last {A : Type} (arr : list A) (n : Z) :
  n < 0 ->
  slice arr (Some 0) (Some n)
  = take (length arr - Z.to_nat (- n)) arr.
Proof.
  intros Hn. unfold slice. change (0 <? 0) with false. cbv iota.
  destruct (Z.ltb_spec n 0) as [_ | ?]; [| lia].
  rewrite (Z.min_l 0) by lia. change (Z.to_nat 0) with O. rewrite drop_0.
  f_equal. lia.
Qed.

Section MoreFilterLog.

Context {locale : Locale} {mongoose : Mongoose}.

Implicit Types (logs : list Exercise) (from to limit : option string).

Lemma filterLog_sublist logs from to limit :
  filterLog logs from to limit `sublist_of` logs.
Proof.
  unfold filterLog.
  set (ranged := if truthy (qvalue from) && truthy (qvalue to) then _ else _).
  assert (ranged `sublist_of` logs) as Hr.
  { unfold ranged. destruct (truthy (qvalue from) && truthy (qvalue to));
      [apply filter_sublist | reflexivity]. }
  destruct (truthy (qvalue limit)); [| exact Hr].
  etransitivity; [apply slice_sublist | exact Hr].
Qed.

(** A negative limit drops entries from the end: with a limit that parses
    to [n < 0], the last [-n] entries of the (possibly range-filtered)
    sequence are left out, and nothing is left when there are no more than
    [-n]. *)
Theorem filterLog_negative_limit logs from to (limit : string) (n : Z) :
  parseInt (VStr limit) (Some 10) = Some n -> n < 0 ->
  filterLog logs from to (Some limit)
  = take (length (filterLog logs from to None) - Z.to_nat (- n))
      (filterLog logs from to None)
  /\ ((length (filterLog logs from to None) <= Z.to_nat (- n))%nat ->
      filterLog logs from to (Some limit) = []).
Proof.
  intros Hparse Hn.
  assert (filterLog logs from to (Some limit)
          = take (length (filterLog logs from to None) - Z.to_nat (- n))
              (filterLog logs from to None)) as ->.
  { rewrite filterLog_limit, (parseInt_present limit n Hparse).
    cbn [qvalue]. rewrite Hparse. apply slice_drop_last, Hn. }
  split; [reflexivity |].
  intros Hlen.
  replace (length (filterLog logs from to None) - Z.to_nat (- n))%nat
    with O by lia.
  apply take_0.
Qed.

(** A bound that is not a date empties the log: with both bounds present
    and one of them not parsing, no entry is returned, whatever the limit. *)
Theorem filterLog_bound_not_a_date logs (from to : string) limit :
  from <> "" -> to <> "" ->
  Date_parse from = None \/ Date_parse to = None ->
  filterLog logs (Some from) (Some to) limit = [].
Proof.
  intros Hf Ht Hnan. rewrite filterLog_limit.
  rewrite (filterLog_invalid_bound logs from to Hf Ht Hnan).
  destruct (present limit); [| reflexivity].
  apply sublist_nil_r, slice_sublist.
Qed.

(** A range whose end lies before its start is empty. *)
Theorem filterLog_inverted_range logs (from to : string) limit (f t : Z) :
  from <> "" -> to <> "" ->
  Date_parse from = Some f -> Date_parse to = Some t -> t < f ->
  filterLog logs (Some from) (Some to) limit = [].
Proof.
  intros Hf Ht Pf Pt Hlt. rewrite filterLog_limit.
  assert (filterLog logs (Some from) (Some to) None = []) as ->.
  { rewrite filterLog_bounds by assumption. rewrite Pf, Pt.
    cbn [num_ge num_le].
    induction logs as [| log logs IH]; [reflexivity |].
    cbn [List.filter]. rewrite IH.
    destruct (Z.leb_spec f (e_date log)), (Z.leb_spec (e_date log) t);
      cbn; try reflexivity; lia. }
  destruct (present limit); [| reflexivity].
  apply sublist_nil_r, slice_sublist.
Qed.

(** Days written [yyyy-mm-dd] as bounds select by calendar day the entries
    that lie at UTC midnight: an entry is kept exactly when its day is
    neither before the day of [from] nor after the day of [to]. *)
Theorem filterLog_by_day logs (y1 m1 d1 y2 m2 d2 : Z) :
  0 <= y1 <= 9999 -> validYMD y1 m1 d1 = true ->
  0 <= y2 <= 9999 -> validYMD y2 m2 d2 = true ->
  Forall (fun log => e_date log mod msPerDay = 0) logs ->
  filterLog logs (Some (isoDate y1 m1 d1)) (Some (isoDate y2 m2 d2)) None
  = keptByDay (utcMidnight y1 m1 d1) (utcMidnight y2 m2 d2) logs.
Proof.
  intros Hy1 Hv1 Hy2 Hv2 Hlogs.
  assert (forall y m d, 0 <= y -> isoDate y m d <> "") as Hne.
  { intros y m d Hy Heq. pose proof (truthy_isoDate y m d Hy) as Ht.
    rewrite Heq in Ht. discriminate Ht. }
  apply filterLog_range_days;
    try (apply Hne; lia); try (apply Date_parse_isoDate; assumption);
    try assumption;
    unfold utcMidnight; rewrite Z.mul_comm; apply Z.mod_mul; discriminate.
Qed.

End MoreFilterLog.

(** ** More on the handlers *)

Section MoreHandlers.

Context {locale : Locale} {mongoose : Mongoose}.

Implicit Types (e : env) (db : Db) (user : User).

(** *** Add Exercise *)


(** A date that is given and is not a string makes the handler throw before
    it looks at the other fields: it sends nothing and stores nothing. *)
Theorem postExercises_date_not_a_string e db (_id : string)
    (description duration date : value) :
  ObjectId_isValid _id = true ->
  truthy date = true -> (forall s, date <> VStr s) ->
  postExercises e db _id description duration date = (Uncaught, db).
Proof.
  intros Hvalid Htruthy Hnot. unfold postExercises, checkDate.
  rewrite Hvalid, Htruthy. cbn [negb].
  destruct date as [| | b | n | s]; try reflexivity.
  now contradiction (Hnot s).
Qed.



(** Add Exercise is not atomic: when the exercise has been created and the
    store cannot be reached for saving the user, the answer is "Unable to
    add exercise.", the exercise stays in the Exercise collection, and no
    log holds it. *)
Theorem postExercises_save_fails e db (_id : string)
    (description duration date : value) user (day descr : string)
    (dur : number) (t : Z) :
  fault e = Some 2%nat -> ObjectId_isValid _id = true ->
  Users db !! _id = Some user ->
  checkDate (now e) date = Some day ->
  truthy description = true -> truthy duration = true ->
  isValidDuration duration = true ->
  castString description = Some descr -> castNumber duration = Some dur ->
  Date_parse day = Some t ->
  Exercises db !! newId e = None ->
  let ex := {| e_id := newId e; e_userId := _id; e_description := descr;
               e_duration := dur; e_date := t |} in
  postExercises e db _id description duration date
  = (res_json (BString "Unable to add exercise."),
     {| Users := Users db; Exercises := <[newId e := ex]> (Exercises db) |}).
Proof.
  intros Hfault Hvalid Hu Hday Hdescr Hdur Hok Hcs Hcn Ht Hfresh ex.
  unfold postExercises, User_findOne, Exercise_create, User_save, reachable.
  rewrite Hvalid, Hday, Hdescr, Hdur, Hok, Hfault, Hu, Hcs, Hcn, Ht, Hfresh.
  reflexivity.
Qed.

(** *** The log *)

(** The log that is returned is a part of the user's log in its order, each
    entry formatted, and the count is its length: the count never exceeds
    the number of stored entries, whatever the bounds and the limit. *)
Theorem getLogs_count_and_order e db (userId : string) from to limit user :
  reachable e 0 = true -> ObjectId_isValid userId = true ->
  Users db !! userId = Some user ->
  exists kept,
    kept `sublist_of` u_log user
    /\ (length kept <= length (u_log user))%nat
    /\ getLogs e db userId from to limit
       = (res_json (BLog userId (u_username user) (length kept)
                      (map formatLog kept)), db).
Proof.
  intros Hup Hvalid Hu. exists (filterLog (u_log user) from to limit).
  pose proof (filterLog_sublist (u_log user) from to limit) as Hsub.
  split; [exact Hsub |]. split; [apply sublist_length, Hsub |].
  now apply getLogs_found.
Qed.

(** A successful Add Exercise shows in the log: the unfiltered log of the
    user then ends with the new entry, with the description, the duration
    and the date string of the answer, and the count has grown by one. *)
Theorem postExercises_then_getLogs e e' db (_id : string)
    (description duration date : value) user (day descr : string)
    (dur : number) (t : Z) :
  fault e = None -> ObjectId_isValid _id = true ->
  Users db !! _id = Some user -> u_id user = _id ->
  checkDate (now e) date = Some day ->
  truthy description = true -> truthy duration = true ->
  isValidDuration duration = true ->
  castString description = Some descr -> castNumber duration = Some dur ->
  Date_parse day = Some t -> TimeClip (Some t) = Some t ->
  Exercises db !! newId e = None ->
  reachable e' 0 = true ->
  let r := postExercises e db _id description duration date in
  r.1 = res_json (BExercise _id (u_username user) descr dur
                    (toDateString (Some t)))
  /\ (getLogs e' r.2 _id None None None).1
     = res_json
         (BLog _id (u_username user) (S (length (u_log user)))
            (map formatLog (u_log user)
             ++ [{| description := descr; duration := dur;
                    date := toDateString (Some t) |}])).
Proof.
  intros Hup Hvalid Hu Hid Hday Hdescr Hdur Hok Hcs Hcn Ht Hclip Hfresh Hup' r.
  unfold r. subst _id.
  rewrite (postExercises_success e db (u_id user) description duration date
             user day descr dur t) by assumption.
  cbn [fst snd]. unfold newDate. rewrite Hclip. split; [reflexivity |].
  erewrite getLogs_found; [| exact Hup' | exact Hvalid
                           | cbn [Users]; apply lookup_insert_eq].
  cbn [fst]. unfold filterLog. cbn [qvalue truthy andb].
  cbn [push u_log u_username]. rewrite length_app, map_app. cbn.
  do 2 f_equal. lia.
Qed.

(** *** The users *)

(** A user is created whenever the name casts to a string that is not empty
    and the new id is free; names already taken by other users do not
    matter.  The answer carries the name and the id, the other users stay
    as they are, and the log of the new user is empty under every query. *)
Theorem postUsers_creates e e' db (username : value) (name : string) :
  reachable e 0 = true -> castString username = Some name -> name <> "" ->
  Users db !! newId e = None ->
  ObjectId_isValid (newId e) = true -> reachable e' 0 = true ->
  let r := postUsers e db username in
  r.1 = res_json (BUser name (newId e))
  /\ Users r.2 !! newId e
     = Some {| u_id := newId e; u_username := name; u_log := [] |}
  /\ (forall id, id <> newId e -> Users r.2 !! id = Users db !! id)
  /\ Exercises r.2 = Exercises db
  /\ (forall from to limit,
        (getLogs e' r.2 (newId e) from to limit).1
        = res_json (BLog (newId e) name 0 [])).
Proof.
  intros Hup Hcast Hne Hfresh Hvalid Hup' r. unfold r, postUsers, User_create.
  rewrite Hup, Hcast, Hfresh. cbn [negb].
  destruct (String.eqb_spec name ""); [contradiction |]. cbn [fst snd Users].
  split; [reflexivity |]. split; [apply lookup_insert_eq |].
  split; [intros id Hid; now apply lookup_insert_ne |].
  split; [reflexivity |].
  intros from to limit.
  erewrite getLogs_found; [| exact Hup' | exact Hvalid
                           | cbn [Users]; apply lookup_insert_eq].
  cbn [fst u_log u_username].
  pose proof (filterLog_sublist (@nil Exercise) from to limit) as Hsub.
  apply sublist_nil_r in Hsub. rewrite Hsub. reflexivity.
Qed.

(** A user is not created, and the store stays as it was, when the name is
    missing or empty or the store cannot be reached ("Unable to create new
    user.") and when the store reports a duplicate key ("Duplicate
    record."). *)
Theorem postUsers_rejects e db (username : value) :
  (reachable e 0 = false \/ castString username = None
   \/ castString username = Some "" ->
   postUsers e db username
   = (res_json (BMessage "Unable to create new user."), db))
  /\ (forall name,
        reachable e 0 = true -> castString username = Some name ->
        name <> "" -> is_Some (Users db !! newId e) ->
        postUsers e db username
        = (res_json (BMessage "Duplicate record."), db)).
Proof.
  unfold postUsers, User_create. split.
  - intros [-> | [-> | ->]]; [reflexivity | |];
      destruct (reachable e 0); reflexivity.
  - intros name -> -> Hne [u ->]. cbn [negb].
    destruct (String.eqb_spec name ""); [contradiction | reflexivity].
Qed.

(** The listing holds every user once, with its name and id, and changes
    nothing. *)
Theorem getUsers_lists_all e db :
  reachable e 0 = true ->
  exists users,
    getUsers e db = (res_json (BUsers users), db)
    /\ length users = size (Users db)
    /\ (forall name id,
          In (name, id) users
          <-> exists key user,
                Users db !! key = Some user
                /\ u_username user = name /\ u_id user = id).
Proof.
  intros Hup. unfold getUsers, User_find. rewrite Hup. cbn [negb].
  eexists. split; [reflexivity |]. split.
  - rewrite length_map, length_fmap. apply length_map_to_list.
  - intros name id. rewrite in_map_iff. split.
    + intros (user & [= <- <-] & Hin).
      apply list_elem_of_In, list_elem_of_fmap in Hin as ([key u] & -> & Hin).
      apply elem_of_map_to_list in Hin. eauto.
    + intros (key & user & Hu & <- & <-). exists user.
      split; [reflexivity |].
      apply list_elem_of_In, list_elem_of_fmap. exists (key, user).
      split; [reflexivity | now apply elem_of_map_to_list].
Qed.

(** A user that has just been created is in the listing. *)
Theorem created_user_is_listed e e' db (username : value) (name : string) :
  reachable e 0 = true -> castString username = Some name -> name <> "" ->
  Users db !! newId e = None -> reachable e' 0 = true ->
  exists users,
    (getUsers e' (postUsers e db username).2).1 = res_json (BUsers users)
    /\ In (name, newId e) users.
Proof.
  intros Hup Hcast Hne Hfresh Hup'.
  unfold postUsers, User_create. rewrite Hup, Hcast, Hfresh. cbn [negb].
  destruct (String.eqb_spec name ""); [contradiction |]. cbn [snd].
  unfold getUsers, User_find. rewrite Hup'. cbn [negb fst].
  eexists. split; [reflexivity |].
  apply in_map_iff.
  exists {| u_id := newId e; u_username := name; u_log := [] |}.
  split; [reflexivity |].
  apply list_elem_of_In, list_elem_of_fmap.
  exists (newId e, {| u_id := newId e; u_username := name; u_log := [] |}).
  split; [reflexivity |].
  apply elem_of_map_to_list. cbn [Users]. apply lookup_insert_eq.
Qed.

End MoreHandlers.

(** ** The earlier version *)

Local Ltac eval_succ :=
  repeat match goal with
         | |- context [Z.add 0 1] => change (Z.add 0 1) with 1
         | |- context [Z.add (Zpos ?p) 1] =>
             let v := eval vm_compute in (Z.add (Zpos p) 1) in
             change (Z.add (Zpos p) 1) with v
         end.

(** The year, month and day of an instant are a day of the calendar. *)
Lemma time_fields_valid (t : Z) :
  validYMD (YearFromTime t) (MonthFromTime t + 1) (DateFromTime t) = true.
Proof.
  pose proof (YearFromTime_spec t) as Hs.
  rewrite DayFromYear_succ in Hs.
  unfold validYMD, DateFromTime, MonthFromTime, InLeapYear, DayWithinYear.
  set (y := YearFromTime t) in *. set (k := Day t - DayFromYear y).
  assert (0 <= k < DaysInYear y) as Hk by (unfold k; lia).
  clearbody k. clear Hs.
  rewrite !andb_true_iff, !Z.leb_le. unfold DaysInMonth.
  destruct (leapDay_cases y) as [[Hdy ->] | [Hdy ->]]; rewrite Hdy in Hk;
    repeat match goal with
           | |- context [Z.ltb ?a ?b] => destruct (Z.ltb_spec a b)
           end; eval_succ; cbn; lia.
Qed.

Lemma isDateFormatValid_length (v : value) :
  isDateFormatValid v = true -> String.length (ToString v) = 10%nat.
Proof.
  unfold isDateFormatValid.
  destruct (ToString v)
    as [| ? [| ? [| ? [| ? [| ? [| ? [| ? [| ? [| ? [| ? [| ? ?]]]]]]]]]]];
    try discriminate. reflexivity.
Qed.

Section MoreEarlierVersion.

Context {locale : Locale} {mongoose : Mongoose}.

Implicit Types (e : env) (db : Db) (user : User).

(** The format check looks at the shape only: every [yyyy-mm-dd] of
    digits passes, month 13 and day 00 as well, and nothing passes that is
    not ten characters long. *)
Theorem isDateFormatValid_shape_only :
  (forall y m d, 0 <= y < 10000 -> 0 <= m < 100 -> 0 <= d < 100 ->
                 isDateFormatValid (VStr (isoDate y m d)) = true)
  /\ (forall v, isDateFormatValid v = true ->
                String.length (ToString v) = 10%nat).
Proof.
  split.
  - intros y m d Hy Hm Hd. now apply isoFields_isoDate.
  - apply isDateFormatValid_length.
Qed.

(** The date taken when none is given: while the local year has four
    digits it is the local day of the clock written [yyyy-mm-dd]; it passes
    the format check and the store reads it as UTC midnight of that day. *)
Theorem defaultDate_well_formed (now : Z) :
  let t := LocalTime now in
  1000 <= YearFromTime t <= 9999 ->
  defaultDate now
  = isoDate (YearFromTime t) (MonthFromTime t + 1) (DateFromTime t)
  /\ isDateFormatValid (VStr (defaultDate now)) = true
  /\ Date_parse (defaultDate now)
     = Some (utcMidnight (YearFromTime t) (MonthFromTime t + 1)
               (DateFromTime t)).
Proof.
  intros t Hy. pose proof (time_fields_valid t) as Hvalid.
  pose proof Hvalid as Hv. unfold validYMD in Hv.
  rewrite !andb_true_iff, !Z.leb_le in Hv.
  destruct Hv as [[[Hm1 Hm12] Hd1] Hdm].
  assert (DateFromTime t < 100)
    by (unfold DaysInMonth in Hdm;
        pose proof (leapDay_cases (YearFromTime t)); repeat case_match; lia).
  assert (defaultDate now
          = isoDate (YearFromTime t) (MonthFromTime t + 1) (DateFromTime t))
    as ->.
  { unfold defaultDate, isoDate, padStart2, Number_toString. fold t.
    destruct (Z.ltb_spec (YearFromTime t) 0); [lia |].
    destruct (Z.ltb_spec (MonthFromTime t + 1) 0); [lia |].
    destruct (Z.ltb_spec (DateFromTime t) 0); [lia |].
    unfold zeroPad at 1.
    destruct (length_showNat (YearFromTime t) ltac:(lia)) as (_ & _ & _ & ->);
      [| lia].
    reflexivity. }
  split; [reflexivity |]. split.
  - apply isoFields_isoDate; lia.
  - apply Date_parse_isoDate; [lia | exact Hvalid].
Qed.

(** The earlier handler checks the date first and does not check the id: a
    date that is given and is not of the form [dddd-dd-dd] is reported
    whatever the id and the other fields are; and an id that is not an
    ObjectId, with the fields in order, is answered "Unable to add
    exercise.".  Nothing is stored either way. *)
Theorem postExercises1_rejections e db (_id : string)
    (description duration date : value) :
  (truthy date = true -> isDateFormatValid date = false ->
   postExercises1 e db _id description duration date
   = (res_json1 (B1String ("The date " ++ dquote ++ ToString date ++ dquote
                           ++ " is not in the correct format.")), db))
  /\ (truthy date = true -> isDateFormatValid date = true ->
      truthy description = true -> truthy duration = true ->
      isValidDuration duration = true ->
      ObjectId_isValid _id = false ->
      postExercises1 e db _id description duration date
      = (res_json1 (B1String "Unable to add exercise."), db)).
Proof.
  unfold postExercises1. split.
  - intros Ht Hf. rewrite Ht. cbn [negb]. rewrite Hf. reflexivity.
  - intros Ht Hf Hdescr Hdur Hok Hid. rewrite Ht. cbn [negb].
    rewrite Hf, Hdescr, Hdur, Hok. cbn [negb orb].
    unfold addExercise1, User_findOne. rewrite Hid.
    destruct (reachable e 0); reflexivity.
Qed.

(** The earlier handler stores the day as it is written: for a day of the
    calendar given as [yyyy-mm-dd], the exercise that is stored and
    returned has the instant of UTC midnight of that day, in every zone,
    and it is the last entry of the user's log. *)
Theorem postExercises1_stores_utc_midnight e db (_id : string)
    (description duration : value) (y m d : Z) user (descr : string)
    (dur : number) :
  0 <= y <= 9999 -> validYMD y m d = true ->
  fault e = None -> ObjectId_isValid _id = true ->
  Users db !! _id = Some user -> u_id user = _id ->
  truthy description = true -> truthy duration = true ->
  isValidDuration duration = true ->
  castString description = Some descr -> castNumber duration = Some dur ->
  Exercises db !! newId e = None ->
  let ex := {| e_id := newId e; e_userId := _id; e_description := descr;
               e_duration := dur; e_date := utcMidnight y m d |} in
  postExercises1 e db _id description duration (VStr (isoDate y m d))
  = (res_json1 (B1Exercise _id (u_username user) (utcMidnight y m d) dur
                  descr),
     {| Users := <[_id := push user ex]> (Users db);
        Exercises := <[newId e := ex]> (Exercises db) |}).
Proof.
  intros Hy Hvalid Hup Hid Hu Hkey Hdescr Hdur Hok Hcs Hcn Hfresh ex.
  pose proof Hvalid as Hv. unfold validYMD in Hv.
  rewrite !andb_true_iff, !Z.leb_le in Hv.
  destruct Hv as [[[Hm1 Hm12] Hd1] Hdm].
  assert (d < 100)
    by (unfold DaysInMonth in Hdm; pose proof (leapDay_cases y);
        repeat case_match; lia).
  assert (forall call, reachable e call = true) as Hreach
    by (intros call; unfold reachable; rewrite Hup; reflexivity).
  subst _id.
  unfold postExercises1. rewrite truthy_isoDate by lia. cbn [negb].
  destruct (isoFields_isoDate y m d) as [_ ->]; [lia | lia | lia |].
  rewrite Hdescr, Hdur, Hok. cbn [negb orb ToString].
  unfold addExercise1, User_findOne, Exercise_create, User_save.
  rewrite !Hreach, Hid, Hu, Hcs, Hcn, Hfresh.
  rewrite Date_parse_isoDate by assumption. cbn [negb].
  unfold lastLogEntry1, User_findOne. rewrite Hreach, Hid.
  cbn [negb Users push u_id]. rewrite lookup_insert_eq.
  unfold push. cbn [u_log u_id u_username]. rewrite last_snoc. reflexivity.
Qed.

End MoreEarlierVersion.

(** ** Maintenance of the store *)

Lemma prefixCI_spec (p : string) :
  forall s,
    prefixCI p s = true
    <-> exists mid post, s = mid ++ post /\ lowerString mid = lowerString p.
Proof.
  induction p as [| a p IH]; intros s.
  - split; [intros _; exists "", s; split; reflexivity | reflexivity].
  - destruct s as [| b s]; cbn [prefixCI].
    + split; [discriminate |].
      intros (mid & post & Hs & Hl). destruct mid; discriminate.
    + rewrite andb_true_iff, IH. split.
      * intros [Hab (mid & post & -> & Hl)].
        exists (String b mid), post. split; [reflexivity |].
        cbn [lowerString]. apply Ascii.eqb_eq in Hab. congruence.
      * intros (mid & post & Hs & Hl).
        destruct mid as [| c mid]; [discriminate |].
        injection Hs as -> ->. cbn [lowerString] in Hl.
        injection Hl as Hc Hl. split; [apply Ascii.eqb_eq; congruence |].
        eauto.
Qed.

(** [/p/i] matches the strings that hold, somewhere, the letters of [p] in
    either case. *)
Lemma containsCI_spec (p s : string) :
  containsCI p s = true
  <-> exists pre mid post,
        s = pre ++ mid ++ post /\ lowerString mid = lowerString p.
Proof.
  induction s as [| b s IH].
  - cbn [containsCI]. rewrite orb_false_r, prefixCI_spec. split.
    + intros (mid & post & Hs & Hl). exists "", mid, post. auto.
    + intros (pre & mid & post & Hs & Hl).
      destruct pre; [| discriminate]. exists mid, post. auto.
  - cbn [containsCI]. rewrite orb_true_iff, prefixCI_spec, IH. split.
    + intros [(mid & post & Hs & Hl) | (pre & mid & post & -> & Hl)].
      * exists "", mid, post. auto.
      * exists (String b pre), mid, post. auto.
    + intros (pre & mid & post & Hs & Hl).
      destruct pre as [| c pre].
      * left. exists mid, post. auto.
      * right. injection Hs as -> ->. exists pre, mid, post. auto.
Qed.

Section MoreMaintenance.

Context {locale : Locale} {mongoose : Mongoose}.

Implicit Types (e : env) (db : Db) (user : User).

(** [deleteMany] deletes the users whose name holds its word, "user" in
    the later version and "test" in the earlier one, in either case of its
    letters, and nothing else: the other users with their logs and the
    Exercise collection stay, and every entry of a log still names its
    user.  For users with names in ASCII. *)
Theorem deleteMany_effect e db db' (word : string)
    (delete : env -> Db -> option Db) :
  map_Forall (fun _ user => isAscii (u_username user) = true) (Users db) ->
  In (word, delete) [("user", deleteMany); ("test", deleteMany1)] ->
  delete e db = Some db' ->
  (forall id user,
      Users db' !! id = Some user
      <-> Users db !! id = Some user
          /\ ~ (exists pre mid post,
                   u_username user = pre ++ mid ++ post
                   /\ lowerString mid = word))
  /\ Exercises db' = Exercises db
  /\ (consistent db -> consistent db').
Proof.
  intros _ Hin Hdel.
  assert (User_deleteMany word e db = Some db' /\ lowerString word = word)
    as [Hd Hw].
  { destruct Hin as [[= <- <-] | [[= <- <-] | []]]; split;
      solve [exact Hdel | reflexivity]. }
  clear Hin Hdel. unfold User_deleteMany in Hd.
  destruct (reachable e 0); [| discriminate].
  injection Hd as <-. cbn [Users Exercises].
  assert (forall id user,
             filter (fun kv => containsCI word (u_username kv.2) = false)
               (Users db) !! id = Some user
             <-> Users db !! id = Some user
                 /\ ~ (exists pre mid post,
                          u_username user = pre ++ mid ++ post
                          /\ lowerString mid = word)) as Hfilter.
  { intros id user. rewrite map_lookup_filter_Some. cbn [snd].
    rewrite <- not_true_iff_false, (containsCI_spec word), Hw.
    reflexivity. }
  split; [exact Hfilter |]. split; [reflexivity |].
  intros [Hk Ho]. split; intros id user Hu; cbn [Users] in Hu;
    apply Hfilter in Hu as [Hu _]; eauto.
Qed.

(** [deleteAllExerciseLogs] empties the Exercise collection and leaves the
    logs: the users' logs are copies kept in the users, and every log
    request is answered as before. *)
Theorem deleteAllExerciseLogs_keeps_logs e db :
  Users (deleteAllExerciseLogs e db) = Users db
  /\ (reachable e 0 = true -> Exercises (deleteAllExerciseLogs e db) = ∅)
  /\ (forall e' userId from to limit,
        (getLogs e' (deleteAllExerciseLogs e db) userId from to limit).1
        = (getLogs e' db userId from to limit).1).
Proof.
  assert (Users (deleteAllExerciseLogs e db) = Users db) as Husers.
  { unfold deleteAllExerciseLogs. destruct (reachable e 0); reflexivity. }
  split; [exact Husers |]. split.
  - intros Hup. unfold deleteAllExerciseLogs. now rewrite Hup.
  - intros e' userId from to limit. unfold getLogs, User_findOne.
    rewrite Husers. repeat case_match; reflexivity.
Qed.

End MoreMaintenance.

(** ** Runs of the further properties *)

Section MoreRuns.

#[local] Existing Instance sampleMongoose.

(** The first of May 2023 at UTC+2. *)
Lemma checkDate_renders_input_day_witness :
  checkDate (locale := fixedZone 120) 0 (VStr "2023-05-01")
  = Some "Mon May 01 2023".
Proof.
  destruct (checkDate_renders_input_day (locale := fixedZone 120)
              0 2023 5 1) as [H _];
    [lia | reflexivity | reflexivity | cbn; lia | exact H].
Defined.

(** The first of January of the year 50. *)
Lemma checkDate_two_digit_year_witness :
  checkDate (locale := fixedZone 0) 0 (VStr "0050-01-01")
  = Some "Sun Jan 01 1950".
Proof.
  exact (checkDate_two_digit_year (locale := fixedZone 0) 0 50 1 1
           ltac:(lia) eq_refl eq_refl ltac:(cbn; lia)).
Defined.

(** A year and a month. *)
Lemma checkDate_not_three_numbers_witness :
  checkDate (locale := fixedZone 0) 0 (VStr "2023-05") = Some "Invalid Date".
Proof.
  apply (checkDate_not_three_numbers (locale := fixedZone 0) 0 "2023-05").
  - discriminate.
  - left. cbn. lia.
Defined.

(** " 600.9" is a valid duration and " -600.9" is not. *)
Lemma isValidDuration_leading_integer_witness :
  isValidDuration (VStr " 600.9") = true
  /\ isValidDuration (VStr " -600.9") = false.
Proof.
  destruct (isValidDuration_leading_integer " " ".9" 600) as [H1 H2];
    [reflexivity | lia | reflexivity |].
  split; [exact H1 | exact H2].
Defined.

(** The limit "-1" on three entries. *)
Lemma filterLog_negative_limit_witness :
  filterLog (locale := fixedZone 0) [lateRun; mayRun; lateRun] None None
    (Some "-1")
  = [lateRun; mayRun].
Proof.
  destruct (filterLog_negative_limit (locale := fixedZone 0)
              [lateRun; mayRun; lateRun] None None "-1" (-1)) as [H _];
    [reflexivity | lia | exact H].
Defined.

(** The bounds "abc" and 2023-02-01. *)
Lemma filterLog_bound_not_a_date_witness :
  filterLog (locale := fixedZone 0) [lateRun] (Some "abc")
    (Some "2023-02-01") None
  = [].
Proof.
  apply (filterLog_bound_not_a_date (locale := fixedZone 0)).
  - discriminate.
  - discriminate.
  - left. reflexivity.
Defined.

(** February to January. *)
Lemma filterLog_inverted_range_witness :
  filterLog (locale := fixedZone 0) [lateRun] (Some "2023-02-01")
    (Some "2023-01-01") None
  = [].
Proof.
  apply (filterLog_inverted_range (locale := fixedZone 0) [lateRun]
           "2023-02-01" "2023-01-01" None 1675209600000 1672531200000).
  - discriminate.
  - discriminate.
  - reflexivity.
  - reflexivity.
  - lia.
Defined.

(** The range of the one day 2023-05-01 keeps the entry at that UTC
    midnight. *)
Lemma filterLog_by_day_witness :
  filterLog (locale := fixedZone 0) [mayRun] (Some "2023-05-01")
    (Some "2023-05-01") None
  = [mayRun].
Proof.
  apply (filterLog_by_day (locale := fixedZone 0) [mayRun] 2023 5 1 2023 5 1).
  - lia.
  - reflexivity.
  - lia.
  - reflexivity.
  - repeat constructor.
Defined.


(** The date given as the Number 20230501. *)
Lemma postExercises_date_not_a_string_witness :
  postExercises (locale := fixedZone 0) (at_ run1) (withAlice (fixedZone 0))
    alice (VStr "run") (VNum 30) (VNum 20230501)
  = (Uncaught, withAlice (fixedZone 0)).
Proof.
  apply (postExercises_date_not_a_string (locale := fixedZone 0)).
  - reflexivity.
  - reflexivity.
  - discriminate.
Defined.



(** Alice's run when the user cannot be saved. *)
Lemma postExercises_save_fails_witness :
  postExercises (locale := fixedZone 0) saveFails (withAlice (fixedZone 0))
    alice (VStr "run") (VNum 30) (VStr "2023-05-01")
  = (res_json (BString "Unable to add exercise."),
     {| Users := Users (withAlice (fixedZone 0));
        Exercises := <[run1 := mayRun]> (Exercises (withAlice (fixedZone 0)))
     |}).
Proof.
  exact (postExercises_save_fails (locale := fixedZone 0) saveFails
           (withAlice (fixedZone 0)) alice (VStr "run") (VNum 30)
           (VStr "2023-05-01") aliceNew "Mon May 01 2023" "run"
           (e_duration mayRun) 1682899200000
           eq_refl eq_refl eq_refl eq_refl eq_refl eq_refl eq_refl eq_refl
           eq_refl eq_refl eq_refl).
Defined.

(** Alice's log. *)
Lemma getLogs_count_and_order_witness :
  exists kept,
    kept `sublist_of` u_log aliceDoc
    /\ (length kept <= length (u_log aliceDoc))%nat
    /\ getLogs (locale := fixedZone 0) (at_ run1) (withRun (fixedZone 0))
         alice None None (Some "5")
       = (res_json (BLog alice (u_username aliceDoc) (length kept)
                      (map (formatLog (locale := fixedZone 0)) kept)),
          withRun (fixedZone 0)).
Proof.
  exact (getLogs_count_and_order (locale := fixedZone 0) (at_ run1)
           (withRun (fixedZone 0)) alice None None (Some "5") aliceDoc
           eq_refl eq_refl eq_refl).
Defined.

(** Alice's run, and her log after it. *)
Lemma postExercises_then_getLogs_witness :
  (getLogs (locale := fixedZone 0) (at_ run1)
     (postExercises (locale := fixedZone 0) (at_ run1)
        (withAlice (fixedZone 0)) alice (VStr "run") (VNum 30)
        (VStr "2023-05-01")).2
     alice None None None).1
  = res_json
      (BLog alice "Alice" 1
         [{| description := "run"; duration := e_duration mayRun;
             date := "Mon May 01 2023" |}]).
Proof.
  exact (proj2 (postExercises_then_getLogs (locale := fixedZone 0)
                  (at_ run1) (at_ run1) (withAlice (fixedZone 0)) alice
                  (VStr "run") (VNum 30) (VStr "2023-05-01") aliceNew
                  "Mon May 01 2023" "run" (e_duration mayRun) 1682899200000
                  eq_refl eq_refl eq_refl eq_refl eq_refl eq_refl eq_refl
                  eq_refl eq_refl eq_refl eq_refl eq_refl eq_refl eq_refl)).
Defined.

(** Alice is created. *)
Lemma postUsers_creates_witness :
  (postUsers (at_ alice) emptyDb (VStr "Alice")).1
  = res_json (BUser "Alice" alice).
Proof.
  apply (postUsers_creates (locale := fixedZone 0) (at_ alice) (at_ alice)
           emptyDb (VStr "Alice") "Alice").
  - reflexivity.
  - reflexivity.
  - discriminate.
  - reflexivity.
  - reflexivity.
  - reflexivity.
Defined.

(** A request without a name. *)
Lemma postUsers_rejects_witness :
  postUsers (at_ alice) emptyDb VUndefined
  = (res_json (BMessage "Unable to create new user."), emptyDb).
Proof.
  apply (proj1 (postUsers_rejects (at_ alice) emptyDb
                  VUndefined)).
  right. left. reflexivity.
Defined.

(** The listing of Alice and the user of a test. *)
Lemma getUsers_lists_all_witness :
  exists users,
    getUsers (at_ run1) (twoUsers (fixedZone 0))
    = (res_json (BUsers users), twoUsers (fixedZone 0))
    /\ length users = size (Users (twoUsers (fixedZone 0)))
    /\ (forall name id,
          In (name, id) users
          <-> exists key user,
                Users (twoUsers (fixedZone 0)) !! key = Some user
                /\ u_username user = name /\ u_id user = id).
Proof.
  exact (getUsers_lists_all (at_ run1)
           (twoUsers (fixedZone 0)) eq_refl).
Defined.

(** Alice, just created, is listed. *)
Lemma created_user_is_listed_witness :
  exists users,
    (getUsers (at_ run1)
       (postUsers (at_ alice) emptyDb
          (VStr "Alice")).2).1
    = res_json (BUsers users)
    /\ In ("Alice", alice) users.
Proof.
  apply (created_user_is_listed (at_ alice)
           (at_ run1) emptyDb (VStr "Alice") "Alice").
  - reflexivity.
  - reflexivity.
  - discriminate.
  - reflexivity.
  - reflexivity.
Defined.

(** Month 13 and day 45 pass the format check. *)
Lemma isDateFormatValid_shape_only_witness :
  isDateFormatValid (VStr "2023-13-45") = true.
Proof.
  apply (proj1 isDateFormatValid_shape_only 2023 13 45); lia.
Defined.

(** The clock at 2023-05-01, 23:00 UTC, in a zone at UTC+2. *)
Lemma defaultDate_well_formed_witness :
  defaultDate (locale := fixedZone 120) 1682982000000 = "2023-05-02".
Proof.
  destruct (defaultDate_well_formed (locale := fixedZone 120) 1682982000000)
    as [H _]; [| exact H].
  change (1000 <= 2023 <= 9999). lia.
Defined.

(** A date with slashes, for an id that is no ObjectId. *)
Lemma postExercises1_rejections_witness :
  postExercises1 (locale := fixedZone 0) (at_ run1) (withAlice (fixedZone 0))
    "xyz" VUndefined VUndefined (VStr "2023/05/01")
  = (res_json1 (B1String ("The date " ++ dquote ++ "2023/05/01" ++ dquote
                          ++ " is not in the correct format.")),
     withAlice (fixedZone 0)).
Proof.
  apply (proj1 (postExercises1_rejections (locale := fixedZone 0) (at_ run1)
                  (withAlice (fixedZone 0)) "xyz" VUndefined VUndefined
                  (VStr "2023/05/01"))); reflexivity.
Defined.

(** Alice's run of 2023-05-01 at UTC-5 is stored at UTC midnight. *)
Lemma postExercises1_stores_utc_midnight_witness :
  (postExercises1 (locale := fixedZone (-300)) (at_ run1)
     (withAlice (fixedZone (-300))) alice (VStr "run") (VNum 30)
     (VStr "2023-05-01")).1
  = res_json1 (B1Exercise alice "Alice" 1682899200000 (e_duration mayRun)
                 "run").
Proof.
  exact (f_equal fst
           (postExercises1_stores_utc_midnight (locale := fixedZone (-300))
              (at_ run1) (withAlice (fixedZone (-300))) alice (VStr "run")
              (VNum 30) 2023 5 1 aliceNew "run" (e_duration mayRun)
              ltac:(lia) eq_refl eq_refl eq_refl eq_refl eq_refl eq_refl
              eq_refl eq_refl eq_refl eq_refl eq_refl)).
Defined.

(** Of Alice and the user of a test, [deleteMany] keeps Alice. *)
Lemma deleteMany_effect_witness :
  exists db',
    deleteMany (at_ run1) (twoUsers (fixedZone 0))
    = Some db'
    /\ Users db' !! alice = Some aliceNew.
Proof.
  eexists. split; [reflexivity |].
  apply (deleteMany_effect (at_ run1)
           (twoUsers (fixedZone 0)) _ "user" deleteMany).
  - intros id user Hu.
    change (Users (twoUsers (fixedZone 0)))
      with (<[nobody := {| u_id := nobody; u_username := "testUSER1";
                           u_log := [] |}]> (<[alice := aliceNew]> ∅)
            : gmap ObjectId User) in Hu.
    apply lookup_insert_Some in Hu as [[_ <-] | [_ Hu]]; [reflexivity |].
    apply lookup_insert_Some in Hu as [[_ <-] | [_ Hu]]; [reflexivity |].
    rewrite lookup_empty in Hu. discriminate Hu.
  - left. reflexivity.
  - reflexivity.
  - split; [reflexivity |].
    intros H. apply (containsCI_spec "user") in H. discriminate H.
Defined.

(** Alice's log after the Exercise collection has been emptied. *)
Lemma deleteAllExerciseLogs_keeps_logs_witness :
  (getLogs (locale := fixedZone 0) (at_ run1)
     (deleteAllExerciseLogs (at_ run1)
        (withRun (fixedZone 0)))
     alice None None None).1
  = (getLogs (locale := fixedZone 0) (at_ run1) (withRun (fixedZone 0))
       alice None None None).1.
Proof.
  exact (proj2 (proj2 (deleteAllExerciseLogs_keeps_logs (at_ run1)
                         (withRun (fixedZone 0))))
           (at_ run1) alice None None None).
Defined.

End MoreRuns.
